(** * The news page: fetch, sort and render

    A shallow embedding of the three revisions of the page script of
    ai-news-agent-poc:

    - [Frontend]  is [src/frontend/script.js]  (articles only),
    - [Dashboard] is [src/unnamed/part_000]    (articles and daily briefing),
    - [Newsfeed]  is [src/unnamed/part_001]    (articles only, null-safe sort).

    The script is event driven: a function runs until it awaits a remote
    read, and is resumed with the response.  Functions are embedded in a
    resumption monad over an explicit page state (the two display regions,
    the sort selector, the console, the clock and a store of arrays). *)

From Stdlib Require Import ZArith Lia Ascii String Sorted OrderedTypeEx.
From stdpp Require Import base gmap strings list sorting pretty.

Local Open Scope Z_scope.

(** ** JavaScript values used by the script *)

(** A double quote and a line feed, for the HTML templates. *)
Definition dq : string := String "034"%char EmptyString.
Definition nl : string := String "010"%char EmptyString.

(** [name="value"] *)
Definition attr (name value : string) : string :=
  name +:+ "=" +:+ dq +:+ value +:+ dq.

(** [n] blanks of template indentation. *)
Fixpoint indent (n : nat) : string :=
  match n with
  | O => ""
  | S n' => " " +:+ indent n'
  end.

(** Truthiness of a nullable string: [null] and the empty string are falsy. *)
Definition truthy (v : option string) : bool :=
  match v with
  | None => false
  | Some s => negb (String.eqb s "")
  end.

(** [v || d] on a nullable string. *)
Definition or_else (v : option string) (d : string) : string :=
  match v with
  | Some s => if truthy v then s else d
  | None => d
  end.

(** [`${v}`] on a nullable string: [null] prints as the word null. *)
Definition template (v : option string) : string :=
  match v with
  | Some s => s
  | None => "null"
  end.

(** [arr.join('')] *)
Definition join (l : list string) : string := foldr String.append "" l.

(** [s.split(c)[0]]: the part of [s] before the first [c]. *)
Fixpoint split_first (c : ascii) (s : string) : string :=
  match s with
  | EmptyString => EmptyString
  | String a s' => if Ascii.eqb a c then EmptyString else String a (split_first c s')
  end.

(** A completion: a value, or a thrown [TypeError]. *)
Inductive Completion (A : Type) : Type :=
| Normal (a : A)
| ThrowTypeError (msg : string).
Arguments Normal {A} a.
Arguments ThrowTypeError {A} msg.

Definition cbind {A B} (c : Completion A) (f : A -> Completion B) : Completion B :=
  match c with
  | Normal a => f a
  | ThrowTypeError m => ThrowTypeError m
  end.

(** The built-ins of the host that the script calls and whose results depend
    on the engine and the locale. *)
Class Host := {
  (** [a.localeCompare(b)] in the default locale *)
  localeCompare : string -> string -> Z;
  (** [new Date(t).toLocaleDateString(undefined, {year: 'numeric', month:
      'long', day: 'numeric', hour: '2-digit', minute: '2-digit'})] *)
  toLocaleDateString : Z -> string;
  (** [new Date(t).toISOString()] *)
  toISOString : Z -> string;
}.

(** [localeCompare] is required to be a consistent comparison function that
    totally orders all strings (ECMA-262, String.prototype.localeCompare). *)
Class HostLaws (H : Host) : Prop := {
  localeCompare_antisym : forall a b, Z.sgn (localeCompare a b) = - Z.sgn (localeCompare b a);
  localeCompare_trans : forall a b c,
    localeCompare a b <= 0 -> localeCompare b c <= 0 -> localeCompare a c <= 0;
}.

(** ** [Array.prototype.sort]

    The built-in sorts in place, is stable (ES2019), and asks the comparator
    [cmp a b]: a negative answer puts [a] first, a positive one [b].  For a
    consistent comparator that fixes the result; it is embedded as a stable
    insertion sort.  The comparator may throw, which aborts the sort. *)
Section ArraySort.
Context {A : Type}.

Section Throwing.
Variable comparefn : A -> A -> Completion Z.

Fixpoint sort_insert (x : A) (l : list A) : Completion (list A) :=
  match l with
  | [] => Normal [x]
  | y :: l' =>
      cbind (comparefn x y) (fun v =>
        if v <=? 0 then Normal (x :: y :: l')
        else cbind (sort_insert x l') (fun r => Normal (y :: r)))
  end.

Fixpoint sort_list (l : list A) : Completion (list A) :=
  match l with
  | [] => Normal []
  | x :: l' => cbind (sort_list l') (sort_insert x)
  end.
End Throwing.

(** The same sort for a comparator that cannot throw. *)
Section Total.
Variable cmp : A -> A -> Z.

Fixpoint insert_by (x : A) (l : list A) : list A :=
  match l with
  | [] => [x]
  | y :: l' => if cmp x y <=? 0 then x :: y :: l' else y :: insert_by x l'
  end.

Fixpoint sort_by (l : list A) : list A :=
  match l with
  | [] => []
  | x :: l' => insert_by x (sort_by l')
  end.
End Total.
End ArraySort.

(** ** Records of the remote store *)

(** A row of [articles].  [published_date] is the time value (milliseconds
    since the epoch, negative before 1970) that [new Date] gives the stored
    timestamp, [None] when the column is null.  The column holds timestamps:
    text that is not a date is outside this model. *)
Record Article := {
  title : string;
  url : string;
  source : option string;
  published_date : option Z;
  description : option string;
  keywords_matched : option (list string);
}.

#[global] Instance Article_eq_dec : EqDecision Article.
Proof. solve_decision. Defined.

(** A row of [daily_briefings]. *)
Record Briefing := {
  briefing_title : option string;
  summary_text : option string;
  key_developments : option (list string);
  strategic_implications : option string;
  suggested_reactions : option string;
  related_article_urls : option (list string);
}.

(** [new Date(v)] for a nullable timestamp: [new Date(null)] is the epoch. *)
Definition new_Date (v : option Z) : Z :=
  match v with
  | Some t => t
  | None => 0
  end.

(** A stored timestamp is a non-empty string, hence truthy; [null] is falsy. *)
Definition truthy_date (v : option Z) : bool :=
  match v with
  | Some _ => true
  | None => false
  end.

(** ** The remote store interface *)

Inductive Query :=
  (** [supabase.from(table).select('*')], optionally
      [.order(column, {ascending})] *)
| SelectAll (table : string) (order : option (string * bool))
  (** [supabase.from(table).select('*').eq(column, value).single()] *)
| SelectSingle (table column value : string).

#[global] Instance Query_eq_dec : EqDecision Query.
Proof. solve_decision. Defined.

Record PostgrestError := { code : string; message : string }.

(** What an awaited query resolves to: [{ data, error }]. *)
Record Response (T : Type) := { data : option T; error : option PostgrestError }.
Arguments data {T} r.
Arguments error {T} r.

(** ** Page state *)

Definition loc := nat.

Record World := {
  heap : gmap loc (list Article);        (* the arrays of the page *)
  newsContainer : string;                (* newsContainer.innerHTML *)
  briefingContainer : string;            (* briefingContainer.innerHTML *)
  sortOrderSelect : string;              (* sortOrderSelect.value *)
  console : list (string * string);      (* console.error(label, text) calls *)
  clock : Z;                             (* the time [new Date()] reads *)
}.

Definition with_heap (h : gmap loc (list Article)) (w : World) : World :=
  {| heap := h; newsContainer := newsContainer w;
     briefingContainer := briefingContainer w; sortOrderSelect := sortOrderSelect w;
     console := console w; clock := clock w |}.

Definition with_news (s : string) (w : World) : World :=
  {| heap := heap w; newsContainer := s;
     briefingContainer := briefingContainer w; sortOrderSelect := sortOrderSelect w;
     console := console w; clock := clock w |}.

Definition with_briefing (s : string) (w : World) : World :=
  {| heap := heap w; newsContainer := newsContainer w;
     briefingContainer := s; sortOrderSelect := sortOrderSelect w;
     console := console w; clock := clock w |}.

Definition with_sortOrder (s : string) (w : World) : World :=
  {| heap := heap w; newsContainer := newsContainer w;
     briefingContainer := briefingContainer w; sortOrderSelect := s;
     console := console w; clock := clock w |}.

Definition with_console (c : list (string * string)) (w : World) : World :=
  {| heap := heap w; newsContainer := newsContainer w;
     briefingContainer := briefingContainer w; sortOrderSelect := sortOrderSelect w;
     console := c; clock := clock w |}.

(** ** The resumption monad *)

(** One run of a function up to its end or its next [await]. *)
Inductive Step (A : Type) : Type :=
| Return (a : A) (w : World)
| Throw (msg : string) (w : World)
| AwaitRows (q : Query) (w : World) (k : Response (list Article) -> World -> Step A)
| AwaitRow (q : Query) (w : World) (k : Response Briefing -> World -> Step A).
Arguments Return {A} a w.
Arguments Throw {A} msg w.
Arguments AwaitRows {A} q w k.
Arguments AwaitRow {A} q w k.

Definition M (A : Type) : Type := World -> Step A.

Fixpoint bind_step {A B} (s : Step A) (f : A -> M B) : Step B :=
  match s with
  | Return a w => f a w
  | Throw e w => Throw e w
  | AwaitRows q w k => AwaitRows q w (fun r w' => bind_step (k r w') f)
  | AwaitRow q w k => AwaitRow q w (fun r w' => bind_step (k r w') f)
  end.

#[global] Instance M_ret : MRet M := fun A a w => Return a w.
#[global] Instance M_bind : MBind M := fun A B f m w => bind_step (m w) f.

Definition throw {A} (msg : string) : M A := fun w => Throw msg w.

Definition set_newsContainer (s : string) : M unit := fun w => Return tt (with_news s w).
Definition append_newsContainer (s : string) : M unit :=
  fun w => Return tt (with_news (newsContainer w +:+ s) w).
Definition set_briefingContainer (s : string) : M unit :=
  fun w => Return tt (with_briefing s w).
Definition console_error (label text : string) : M unit :=
  fun w => Return tt (with_console (console w ++ [(label, text)]) w).
Definition get_sortOrder : M string := fun w => Return (sortOrderSelect w) w.
Definition get_clock : M Z := fun w => Return (clock w) w.

(** [await query] *)
Definition await_rows (q : Query) : M (Response (list Article)) :=
  fun w => AwaitRows q w (fun r w' => Return r w').
Definition await_row (q : Query) : M (Response Briefing) :=
  fun w => AwaitRow q w (fun r w' => Return r w').

(** Arrays live in the store and are passed by reference. *)
Definition array_new (l : list Article) : M loc :=
  fun w => let a := fresh (dom (heap w)) in Return a (with_heap (<[a := l]> (heap w)) w).
Definition array_get (a : loc) : M (list Article) :=
  fun w => Return (heap w !!! a) w.
Definition array_set (a : loc) (l : list Article) : M unit :=
  fun w => Return tt (with_heap (<[a := l]> (heap w)) w).

(** [[...a]]: a fresh array with the elements of [a]. *)
Definition spread (a : loc) : M loc := l ← array_get a; array_new l.

(** [a.sort(comparefn)]: sorts the array at [a] in place. *)
Definition Array_sort (a : loc) (comparefn : Article -> Article -> Completion Z) : M unit :=
  l ← array_get a;
  match sort_list comparefn l with
  | Normal l' => array_set a l'
  | ThrowTypeError msg => throw msg
  end.

(** [a.forEach(f)] *)
Fixpoint for_each {A} (l : list A) (f : A -> M unit) : M unit :=
  match l with
  | [] => mret tt
  | x :: l' => f x;; for_each l' f
  end.
Definition Array_forEach (a : loc) (f : Article -> M unit) : M unit :=
  l ← array_get a; for_each l f.

(** ** Running a function against a remote store *)

(** The store answers every query; a suspended function is resumed at once. *)
Record Remote := {
  rows_of : Query -> Response (list Article);
  row_of : Query -> Response Briefing;
}.

Record Run (A : Type) := {
  issued : list Query;          (* the remote reads, in order *)
  outcome : Completion A;
  final : World;
}.
Arguments issued {A} r.
Arguments outcome {A} r.
Arguments final {A} r.

Fixpoint run {A} (remote : Remote) (s : Step A) : Run A :=
  match s with
  | Return a w => {| issued := []; outcome := Normal a; final := w |}
  | Throw msg w => {| issued := []; outcome := ThrowTypeError msg; final := w |}
  | AwaitRows q w k =>
      let r := run remote (k (rows_of remote q) w) in
      {| issued := q :: issued r; outcome := outcome r; final := final r |}
  | AwaitRow q w k =>
      let r := run remote (k (row_of remote q) w) in
      {| issued := q :: issued r; outcome := outcome r; final := final r |}
  end.

(** The browser sets the selector to the chosen value and then calls the
    [change] listener. *)
Definition change_event (value : string) (listener : M unit) : M unit :=
  fun w => listener (with_sortOrder value w).

(** ** Text shared by the three revisions *)

(** [arr && arr.length > 0] *)
Definition has_items (arr : option (list string)) : bool :=
  match arr with
  | Some (_ :: _) => true
  | _ => false
  end.

Definition items (arr : option (list string)) : list string := default [] arr.

(** The card template literal; the holes are the interpolated expressions. *)
Definition newsCard_template (url_ title_ source_ articleDate description_ keywordsHtml : string)
  : string :=
  nl +:+ indent 12 +:+ "<div " +:+ attr "class" "news-card" +:+ ">" +:+
  nl +:+ indent 16 +:+ "<h2><a " +:+ attr "href" url_ +:+ " " +:+ attr "target" "_blank" +:+ ">"
     +:+ title_ +:+ "</a></h2>" +:+
  nl +:+ indent 16 +:+ "<p " +:+ attr "class" "news-meta" +:+ ">" +:+
  nl +:+ indent 20 +:+ "<span><strong>Source:</strong> " +:+ source_ +:+ "</span>" +:+
  nl +:+ indent 20 +:+ "<span><strong>Published:</strong> " +:+ articleDate +:+ "</span>" +:+
  nl +:+ indent 16 +:+ "</p>" +:+
  nl +:+ indent 16 +:+ "<p " +:+ attr "class" "news-description" +:+ ">" +:+ description_ +:+ "</p>" +:+
  nl +:+ indent 16 +:+ "<div " +:+ attr "class" "news-keywords" +:+ ">" +:+ keywordsHtml +:+ "</div>" +:+
  nl +:+ indent 12 +:+ "</div>" +:+
  nl +:+ indent 8.

(** The date line and the keyword tags of a card are the same in all three. *)
Definition articleDate_of `{Host} (article : Article) : string :=
  if truthy_date (published_date article)
  then toLocaleDateString (new_Date (published_date article))
  else "N/A".

Definition keywordsHtml_of (article : Article) : string :=
  if has_items (keywords_matched article)
  then join (map (fun keyword => "<span>" +:+ keyword +:+ "</span>") (items (keywords_matched article)))
  else "".

(** ** [src/unnamed/part_000]: articles and the daily briefing *)
Module Dashboard.
Section Script.
Context `{Host}.

(** [renderBriefing], the string it builds. *)
Definition briefingHtml_of (briefing : Briefing) : string :=
  let briefingHtml :=
    "<h3>" +:+ or_else (briefing_title briefing) "AI Morning Briefing" +:+ "</h3>" in
  let briefingHtml :=
    briefingHtml +:+ "<p><strong>Executive Summary:</strong> "
      +:+ or_else (summary_text briefing) "No summary available." +:+ "</p>" in
  let briefingHtml :=
    if has_items (key_developments briefing) then
      let briefingHtml := briefingHtml +:+ "<h3>Key Developments:</h3><ul>" in
      let briefingHtml :=
        foldl (fun acc item => acc +:+ "<li>" +:+ item +:+ "</li>")
              briefingHtml (items (key_developments briefing)) in
      briefingHtml +:+ "</ul>"
    else briefingHtml in
  let briefingHtml :=
    if truthy (strategic_implications briefing) then
      briefingHtml +:+ "<h3>Strategic Implications for New Economy Canada:</h3><p>"
        +:+ template (strategic_implications briefing) +:+ "</p>"
    else briefingHtml in
  let briefingHtml :=
    if truthy (suggested_reactions briefing) then
      briefingHtml +:+ "<h3>Suggested Reactions:</h3><p>"
        +:+ template (suggested_reactions briefing) +:+ "</p>"
    else briefingHtml in
  let briefingHtml :=
    if has_items (related_article_urls briefing) then
      let briefingHtml := briefingHtml +:+ "<h3>Relevant Article URLs:</h3><ul>" in
      let briefingHtml :=
        foldl (fun acc url_ =>
                 acc +:+ "<li><a " +:+ attr "href" url_ +:+ " " +:+ attr "target" "_blank"
                     +:+ ">" +:+ url_ +:+ "</a></li>")
              briefingHtml (items (related_article_urls briefing)) in
      briefingHtml +:+ "</ul>"
    else briefingHtml in
  briefingHtml.

Definition renderBriefing (briefing : Briefing) : M unit :=
  set_briefingContainer (briefingHtml_of briefing).

Definition fetchDailyBriefing : M unit :=
  set_briefingContainer "<p>Loading daily briefing...</p>";;
  now ← get_clock;
  let today := split_first "T" (toISOString now) in
  r ← await_row (SelectSingle "daily_briefings" "briefing_date" today);
  let proceed : M unit :=
    match data r with
    | Some briefing => renderBriefing briefing
    | None =>
        set_briefingContainer
          "<p>No AI briefing available for today yet. Check back later!</p>"
    end in
  match error r with
  | Some e =>
      if negb (String.eqb (code e) "PGRST116") then
        console_error "Error fetching daily briefing:" (message e);;
        set_briefingContainer "<p>Failed to load daily briefing.</p>"
      else proceed
  | None => proceed
  end.

(** The comparators of the [switch]. *)
Definition by_date_asc (a b : Article) : Completion Z :=
  let dateA := if truthy_date (published_date a)
               then new_Date (published_date a) else new_Date (Some 0) in
  let dateB := if truthy_date (published_date b)
               then new_Date (published_date b) else new_Date (Some 0) in
  Normal (dateA - dateB).

Definition by_date_desc (a b : Article) : Completion Z :=
  let dateA := if truthy_date (published_date a)
               then new_Date (published_date a) else new_Date (Some 0) in
  let dateB := if truthy_date (published_date b)
               then new_Date (published_date b) else new_Date (Some 0) in
  Normal (dateB - dateA).

Definition by_source_asc (a b : Article) : Completion Z :=
  Normal (localeCompare (or_else (source a) "") (or_else (source b) "")).

(** [renderAggregatedNews], lines 96 to 119: the copy and the [switch].
    The specification calls this step sortArticles. *)
Definition sortArticles (articles : loc) : M loc :=
  sortOrder ← get_sortOrder;
  sortedArticles ← spread articles;
  (if String.eqb sortOrder "published_date_asc" then Array_sort sortedArticles by_date_asc
   else if String.eqb sortOrder "published_date_desc" then Array_sort sortedArticles by_date_desc
   else if String.eqb sortOrder "source_asc" then Array_sort sortedArticles by_source_asc
   else mret tt);;
  mret sortedArticles.

Definition newsCard (article : Article) : string :=
  newsCard_template (url article) (title article)
    (or_else (source article) "Unknown")
    (articleDate_of article)
    (or_else (description article) "No description available.")
    (keywordsHtml_of article).

(** [renderAggregatedNews], lines 121 to 144: clear the region, then one
    card per article. *)
Definition renderArticles (sortedArticles : loc) : M unit :=
  set_newsContainer "";;
  Array_forEach sortedArticles (fun article => append_newsContainer (newsCard article)).

Definition renderAggregatedNews (articles : loc) : M unit :=
  sortedArticles ← sortArticles articles;
  renderArticles sortedArticles.

Definition fetchAndRenderAggregatedNews : M unit :=
  set_newsContainer "<p>Loading news articles...</p>";;
  r ← await_rows (SelectAll "articles" None);
  match error r with
  | Some e =>
      console_error "Error fetching articles:" (message e);;
      set_newsContainer "<p>Failed to load news articles. Please try again later.</p>"
  | None =>
      match data r with
      | None => throw "Cannot read properties of null (reading 'length')"
      | Some rows =>
          if Nat.eqb (length rows) 0 then
            set_newsContainer "<p>No relevant news articles found today.</p>"
          else
            articles ← array_new rows;
            renderAggregatedNews articles
      end
  end.

(** [sortOrderSelect.addEventListener('change', fetchAndRenderAggregatedNews)] *)
Definition onSortOrderChange : M unit := fetchAndRenderAggregatedNews.
End Script.
End Dashboard.

(** ** [src/frontend/script.js]: articles only *)
Module Frontend.
Section Script.
Context `{Host}.

Definition by_date_asc (a b : Article) : Completion Z :=
  Normal (new_Date (published_date a) - new_Date (published_date b)).

Definition by_date_desc (a b : Article) : Completion Z :=
  Normal (new_Date (published_date b) - new_Date (published_date a)).

(** [a.source.localeCompare(b.source)]: reading a property of [null]
    throws; a [null] argument is converted to the string null. *)
Definition by_source_asc (a b : Article) : Completion Z :=
  match source a with
  | None => ThrowTypeError "Cannot read properties of null (reading 'localeCompare')"
  | Some s => Normal (localeCompare s (template (source b)))
  end.

(** [renderNews], lines 34 to 50: the copy and the [switch]. *)
Definition sortArticles (articles : loc) : M loc :=
  sortOrder ← get_sortOrder;
  sortedArticles ← spread articles;
  (if String.eqb sortOrder "published_date_asc" then Array_sort sortedArticles by_date_asc
   else if String.eqb sortOrder "published_date_desc" then Array_sort sortedArticles by_date_desc
   else if String.eqb sortOrder "source_asc" then Array_sort sortedArticles by_source_asc
   else mret tt);;
  mret sortedArticles.

Definition newsCard (article : Article) : string :=
  newsCard_template (url article) (title article)
    (template (source article))
    (articleDate_of article)
    (template (description article))
    (keywordsHtml_of article).

(** [renderNews], lines 52 to 75. *)
Definition renderArticles (sortedArticles : loc) : M unit :=
  set_newsContainer "";;
  Array_forEach sortedArticles (fun article => append_newsContainer (newsCard article)).

Definition renderNews (articles : loc) : M unit :=
  sortedArticles ← sortArticles articles;
  renderArticles sortedArticles.

Definition fetchNews : M unit :=
  set_newsContainer "<p>Loading news...</p>";;
  r ← await_rows (SelectAll "articles" (Some ("published_date"%string, false)));
  match error r with
  | Some e =>
      console_error "Error fetching articles:" (message e);;
      set_newsContainer "<p>Failed to load news. Please try again later.</p>"
  | None =>
      match data r with
      | None => throw "Cannot read properties of null (reading 'length')"
      | Some rows =>
          if Nat.eqb (length rows) 0 then
            set_newsContainer "<p>No relevant news found today.</p>"
          else
            articles ← array_new rows;
            renderNews articles
      end
  end.

(** The [change] listener, lines 79 to 89. *)
Definition onSortOrderChange : M unit :=
  r ← await_rows (SelectAll "articles" None);
  match error r, data r with
  | None, Some rows =>
      articles ← array_new rows;
      renderNews articles
  | _, _ => mret tt
  end.
End Script.
End Frontend.

(** ** [src/unnamed/part_001]: articles only, null-safe sort *)
Module Newsfeed.
Section Script.
Context `{Host}.

Definition by_date_asc (a b : Article) : Completion Z :=
  Normal (new_Date (published_date a) - new_Date (published_date b)).

Definition by_date_desc (a b : Article) : Completion Z :=
  let dateA := if truthy_date (published_date a)
               then new_Date (published_date a) else new_Date (Some 0) in
  let dateB := if truthy_date (published_date b)
               then new_Date (published_date b) else new_Date (Some 0) in
  Normal (dateB - dateA).

Definition by_source_asc (a b : Article) : Completion Z :=
  Normal (localeCompare (or_else (source a) "") (or_else (source b) "")).

(** [renderNews], lines 39 to 60: the copy and the [switch]. *)
Definition sortArticles (articles : loc) : M loc :=
  sortOrder ← get_sortOrder;
  sortedArticles ← spread articles;
  (if String.eqb sortOrder "published_date_asc" then Array_sort sortedArticles by_date_asc
   else if String.eqb sortOrder "published_date_desc" then Array_sort sortedArticles by_date_desc
   else if String.eqb sortOrder "source_asc" then Array_sort sortedArticles by_source_asc
   else mret tt);;
  mret sortedArticles.

Definition newsCard (article : Article) : string :=
  newsCard_template (url article) (title article)
    (or_else (source article) "Unknown")
    (articleDate_of article)
    (or_else (description article) "No description available.")
    (keywordsHtml_of article).

(** [renderNews], lines 62 to 87. *)
Definition renderArticles (sortedArticles : loc) : M unit :=
  set_newsContainer "";;
  Array_forEach sortedArticles (fun article => append_newsContainer (newsCard article)).

Definition renderNews (articles : loc) : M unit :=
  sortedArticles ← sortArticles articles;
  renderArticles sortedArticles.

Definition fetchNewsAndRender : M unit :=
  set_newsContainer "<p>Loading news...</p>";;
  r ← await_rows (SelectAll "articles" None);
  match error r with
  | Some e =>
      console_error "Error fetching articles:" (message e);;
      set_newsContainer "<p>Failed to load news. Please try again later.</p>"
  | None =>
      match data r with
      | None => throw "Cannot read properties of null (reading 'length')"
      | Some rows =>
          if Nat.eqb (length rows) 0 then
            set_newsContainer "<p>No relevant news found today.</p>"
          else
            articles ← array_new rows;
            renderNews articles
      end
  end.

(** [sortOrderSelect.addEventListener('change', fetchNewsAndRender)] *)
Definition onSortOrderChange : M unit := fetchNewsAndRender.
End Script.
End Newsfeed.

(** ** Vocabulary of the specification *)

(** The timestamp an article is sorted by: a missing date counts as the
    epoch, time value 0. *)
Definition effective_time (a : Article) : Z := new_Date (published_date a).

(** The source an article is sorted by: a missing source counts as empty. *)
Definition effective_source (a : Article) : string := or_else (source a) "".

Definition cmp_date_asc (a b : Article) : Z := effective_time a - effective_time b.
Definition cmp_date_desc (a b : Article) : Z := effective_time b - effective_time a.
Definition cmp_source_asc `{Host} (a b : Article) : Z :=
  localeCompare (effective_source a) (effective_source b).

(** What the [switch] leaves in the copied array, for comparators that do
    not throw. *)
Definition ordered `{Host} (order : string) (l : list Article) : list Article :=
  if String.eqb order "published_date_asc" then sort_by cmp_date_asc l
  else if String.eqb order "published_date_desc" then sort_by cmp_date_desc l
  else if String.eqb order "source_asc" then sort_by cmp_source_asc l
  else l.

(** Two articles tie under an order key. *)
Definition same_key `{Host} (order : string) (a b : Article) : Prop :=
  if String.eqb order "published_date_asc" then effective_time a = effective_time b
  else if String.eqb order "published_date_desc" then effective_time a = effective_time b
  else if String.eqb order "source_asc" then cmp_source_asc a b = 0
  else True.

Definition ascending (l : list Article) : Prop :=
  StronglySorted (fun a b => effective_time a <= effective_time b) l.
Definition descending (l : list Article) : Prop :=
  StronglySorted (fun a b => effective_time b <= effective_time a) l.

(** [x] stands before [y] in [l], for every occurrence of either. *)
Definition precedes (l : list Article) (x y : Article) : Prop :=
  forall i j : nat, l !! i = Some x -> l !! j = Some y -> (i < j)%nat.

(** The body shared by the three [switch] statements. *)
Definition switch_sort (asc desc src : Article -> Article -> Completion Z)
    (articles : loc) : M loc :=
  sortOrder ← get_sortOrder;
  sortedArticles ← spread articles;
  (if String.eqb sortOrder "published_date_asc" then Array_sort sortedArticles asc
   else if String.eqb sortOrder "published_date_desc" then Array_sort sortedArticles desc
   else if String.eqb sortOrder "source_asc" then Array_sort sortedArticles src
   else mret tt);;
  mret sortedArticles.

(** The body shared by the three painting loops. *)
Definition paint (card : Article -> string) (sortedArticles : loc) : M unit :=
  set_newsContainer "";;
  Array_forEach sortedArticles (fun article => append_newsContainer (card article)).

(** The page after a render of the array at [articles] that does not throw:
    the sorted copy sits at a fresh location and the region shows its cards. *)
Definition rendered `{Host} (card : Article -> string) (articles : loc) (w : World) : World :=
  let l := ordered (sortOrderSelect w) (heap w !!! articles) in
  with_news (join (map card l)) (with_heap (<[fresh (dom (heap w)) := l]> (heap w)) w).

(** Sorting the array at [articles] under order [first] and the result under
    order [second] ends with [result] in the last copy. *)
Definition sorted_twice (sortArticles : loc -> M loc) (first second : string)
    (articles : loc) (w : World) (result : list Article) : Prop :=
  exists s1 w1 s2 w2,
    sortArticles articles (with_sortOrder first w) = Return s1 w1 /\
    sortArticles s1 (with_sortOrder second w1) = Return s2 w2 /\
    heap w2 !!! s2 = result.

(** The sort step returns a fresh array holding a permutation of the input
    and leaves every array that existed before as it was. *)
Definition sorts_a_copy (sortArticles : loc -> M loc) (articles : loc) (w : World) : Prop :=
  exists s w',
    sortArticles articles w = Return s w' /\
    s <> articles /\
    heap w' !!! s ≡ₚ heap w !!! articles /\
    heap w' !! articles = heap w !! articles /\
    (forall a, is_Some (heap w !! a) -> heap w' !! a = heap w !! a).

(** The sort step under [published_date_asc]: it returns a permutation of
    the input in ascending order, with [x] before [y]. *)
Definition sorts_oldest_first (sortArticles : loc -> M loc) (articles : loc) (w : World)
    (x y : Article) : Prop :=
  exists s w',
    sortArticles articles (with_sortOrder "published_date_asc" w) = Return s w' /\
    heap w' !!! s ≡ₚ heap w !!! articles /\
    ascending (heap w' !!! s) /\
    precedes (heap w' !!! s) x y.

(** Every article without a date stands before every article with one. *)
Definition missing_dates_first (l : list Article) : Prop :=
  forall x y, published_date x = None -> is_Some (published_date y) -> precedes l x y.

(** Section 4.5 as stated: once the articles are loaded, a change of the sort
    order issues no remote read. *)
Definition reorders_without_fetch (load listener : M unit) (remote : Remote) (w : World)
    (order : string) : Prop :=
  issued (run remote (change_event order listener (final (run remote (load w))))) = [].

(** Rendering the same array again, or over other previous content, shows
    the same cards. *)
Definition renders_idempotently (render : loc -> M unit) (articles : loc) (w : World)
    (previous : string) : Prop :=
  exists w1 w2 w3,
    render articles w = Return tt w1 /\
    render articles w1 = Return tt w2 /\
    render articles (with_news previous w) = Return tt w3 /\
    newsContainer w2 = newsContainer w1 /\
    newsContainer w3 = newsContainer w1.

(** A nullable string, or array, that is absent or empty. *)
Definition absent (v : option string) : Prop := v = None \/ v = Some ""%string.
Definition absent_list (v : option (list string)) : Prop := v = None \/ v = Some [].

(** The sections of the briefing view, one by one. *)
Definition heading_section (b : Briefing) : string :=
  "<h3>" +:+ or_else (briefing_title b) "AI Morning Briefing" +:+ "</h3>".

Definition summary_section (b : Briefing) : string :=
  "<p><strong>Executive Summary:</strong> "
    +:+ or_else (summary_text b) "No summary available." +:+ "</p>".

Definition developments_section (b : Briefing) : string :=
  if has_items (key_developments b) then
    "<h3>Key Developments:</h3><ul>"
      +:+ join (map (fun item => "<li>" +:+ item +:+ "</li>") (items (key_developments b)))
      +:+ "</ul>"
  else "".

Definition implications_section (b : Briefing) : string :=
  if truthy (strategic_implications b) then
    "<h3>Strategic Implications for New Economy Canada:</h3><p>"
      +:+ template (strategic_implications b) +:+ "</p>"
  else "".

Definition reactions_section (b : Briefing) : string :=
  if truthy (suggested_reactions b) then
    "<h3>Suggested Reactions:</h3><p>" +:+ template (suggested_reactions b) +:+ "</p>"
  else "".

Definition urls_section (b : Briefing) : string :=
  if has_items (related_article_urls b) then
    "<h3>Relevant Article URLs:</h3><ul>"
      +:+ join (map (fun url_ => "<li><a " +:+ attr "href" url_ +:+ " "
                                  +:+ attr "target" "_blank" +:+ ">" +:+ url_ +:+ "</a></li>")
                    (items (related_article_urls b)))
      +:+ "</ul>"
  else "".

(** The lookup [fetchDailyBriefing] sends: the briefing of the current day. *)
Definition todays_query `{Host} (w : World) : Query :=
  SelectSingle "daily_briefings" "briefing_date" (split_first "T" (toISOString (clock w))).

Definition briefing_unavailable : string :=
  "<p>No AI briefing available for today yet. Check back later!</p>".
Definition briefing_failed : string := "<p>Failed to load daily briefing.</p>".

(** ** A host and sample pages for the examples *)

(** Comparison by code units, a stand-in collation. *)
Definition codeUnitCompare (a b : string) : Z :=
  match String.compare a b with
  | Lt => -1
  | Eq => 0
  | Gt => 1
  end.

(** A host whose clock stands at 08:00 UTC on 1 June 2024. *)
Definition sampleHost : Host := {|
  localeCompare := codeUnitCompare;
  toLocaleDateString := fun t => pretty t;
  toISOString := fun _ => "2024-06-01T08:00:00.000Z";
|}.

Definition sampleArticle (name : string) (src : option string) (date : option Z) : Article := {|
  title := name;
  url := "https://example.org/" +:+ name;
  source := src;
  published_date := date;
  description := None;
  keywords_matched := Some ["ai"];
|}.

(** 1 January 1960, 00:00 UTC, as a time value. *)
Definition year1960 : Z := -315619200000.
(** 2 January 2024, 00:00 UTC, as a time value. *)
Definition jan2024 : Z := 1704153600000.

(** A page that holds one array, at location 0. *)
Definition samplePage (order : string) (rows : list Article) : World := {|
  heap := {[ 0%nat := rows ]};
  newsContainer := "<p>Loading news...</p>";
  briefingContainer := "";
  sortOrderSelect := order;
  console := [];
  clock := 1717228800000;
|}.

(** A page before anything was loaded. *)
Definition blankPage : World := {|
  heap := ∅;
  newsContainer := "";
  briefingContainer := "";
  sortOrderSelect := "published_date_desc";
  console := [];
  clock := 1717228800000;
|}.

(** A store with two articles and no briefing for the day. *)
Definition sampleRemote : Remote := {|
  rows_of := fun _ =>
    {| data := Some [sampleArticle "B" (Some "Zeta") (Some jan2024);
                     sampleArticle "A" (Some "Alpha") None];
       error := None |};
  row_of := fun _ =>
    {| data := None;
       error := Some {| code := "PGRST116";
                        message := "JSON object requested, multiple (or no) rows returned" |} |};
|}.

(** A store that cannot be reached. *)
Definition failingRemote : Remote := {|
  rows_of := fun _ =>
    {| data := None; error := Some {| code := ""; message := "TypeError: Failed to fetch" |} |};
  row_of := fun _ =>
    {| data := None; error := Some {| code := ""; message := "TypeError: Failed to fetch" |} |};
|}.

(** A briefing row with nothing but empty fields. *)
Definition sampleBriefing : Briefing := {|
  briefing_title := None;
  summary_text := Some ""%string;
  key_developments := Some [];
  strategic_implications := None;
  suggested_reactions := Some ""%string;
  related_article_urls := None;
|}.

(** A store that holds today's briefing. *)
Definition briefingRemote : Remote := {|
  rows_of := rows_of sampleRemote;
  row_of := fun _ => {| data := Some sampleBriefing; error := None |};
|}.

(** ** The start of the page *)

(** The page state a step stands in. *)
Definition world_of {A} (s : Step A) : World :=
  match s with
  | Return _ w => w
  | Throw _ w => w
  | AwaitRows _ w _ => w
  | AwaitRow _ w _ => w
  end.

(** Which of the two answers reaches the page first. *)
Inductive Arrival := BriefingFirst | ArticlesFirst.

(** The last two lines of [src/unnamed/part_000]:
    [fetchDailyBriefing(); fetchAndRenderAggregatedNews();].  Each call runs
    up to its [await]; the two are resumed as their answers arrive, in
    either order. *)
Definition pageLoad `{Host} (arrival : Arrival) (briefingAnswer : Response Briefing)
    (articlesAnswer : Response (list Article)) (w : World) : World :=
  match Dashboard.fetchDailyBriefing w with
  | AwaitRow _ w1 resumeBriefing =>
      match Dashboard.fetchAndRenderAggregatedNews w1 with
      | AwaitRows _ w2 resumeArticles =>
          match arrival with
          | BriefingFirst =>
              world_of (resumeArticles articlesAnswer
                          (world_of (resumeBriefing briefingAnswer w2)))
          | ArticlesFirst =>
              world_of (resumeBriefing briefingAnswer
                          (world_of (resumeArticles articlesAnswer w2)))
          end
      | s => world_of s
      end
  | s => world_of s
  end.

(** ** Further vocabulary *)


(** No two articles of the list share a timestamp. *)
Definition distinct_times (l : list Article) : Prop :=
  forall a b, a ∈ l -> b ∈ l -> effective_time a = effective_time b -> a = b.

(** A response that carries an error or rows. *)
Definition answered {T} (r : Response T) : Prop := is_Some (error r) \/ is_Some (data r).

(** What the [switch] of [src/frontend/script.js] leaves in the copied array,
    or the error its comparator throws. *)
Definition Frontend_ordered `{Host} (order : string) (l : list Article)
  : Completion (list Article) :=
  if String.eqb order "published_date_asc" then sort_list Frontend.by_date_asc l
  else if String.eqb order "published_date_desc" then sort_list Frontend.by_date_desc l
  else if String.eqb order "source_asc" then sort_list Frontend.by_source_asc l
  else Normal l.

(** A store without articles. *)
Definition emptyRemote : Remote := {|
  rows_of := fun _ => {| data := Some []; error := None |};
  row_of := row_of sampleRemote;
|}.

(** [c] occurs in [s]. *)
Fixpoint contains_char (c : ascii) (s : string) : bool :=
  match s with
  | EmptyString => false
  | String a s' => Ascii.eqb a c || contains_char c s'
  end.

(** What the briefing region shows, and what is logged, once the lookup is
    answered by [r]. *)
Definition briefing_shown (r : Response Briefing) : string :=
  match error r, data r with
  | Some e, Some b =>
      if String.eqb (code e) "PGRST116" then Dashboard.briefingHtml_of b else briefing_failed
  | Some e, None =>
      if String.eqb (code e) "PGRST116" then briefing_unavailable else briefing_failed
  | None, Some b => Dashboard.briefingHtml_of b
  | None, None => briefing_unavailable
  end.

Definition briefing_logged (r : Response Briefing) : list (string * string) :=
  match error r with
  | Some e =>
      if String.eqb (code e) "PGRST116" then []
      else [("Error fetching daily briefing:"%string, message e)]
  | None => []
  end.

(** What is logged once the read of the articles is answered by [r]. *)
Definition articles_logged (r : Response (list Article)) : list (string * string) :=
  match error r with
  | Some e => [("Error fetching articles:"%string, message e)]
  | None => []
  end.

(** The page of [src/unnamed/part_000] once the read of the articles is
    answered by [r] on the page [w]. *)
Definition articles_settled `{Host} (r : Response (list Article)) (w : World) : World :=
  match error r with
  | Some e =>
      with_news "<p>Failed to load news articles. Please try again later.</p>"
        (with_console (console w ++ articles_logged r) w)
  | None =>
      match data r with
      | None => w
      | Some [] => with_news "<p>No relevant news articles found today.</p>" w
      | Some rows =>
          rendered Dashboard.newsCard (fresh (dom (heap w)))
            (with_heap (<[fresh (dom (heap w)) := rows]> (heap w)) w)
      end
  end.

(** * Properties *)

(** ** Strings *)

Lemma append_cons (x : ascii) (a b : string) : String x a +:+ b = String x (a +:+ b).
Proof. reflexivity. Qed.

Lemma append_assoc (a b c : string) : (a +:+ b) +:+ c = a +:+ (b +:+ c).
Proof.
  induction a as [|x a IH]; [reflexivity|].
  now rewrite !append_cons, IH.
Qed.

Lemma append_empty_r (a : string) : a +:+ "" = a.
Proof.
  induction a as [|x a IH]; [reflexivity|].
  now rewrite append_cons, IH.
Qed.

Lemma join_app (l1 l2 : list string) : join (l1 ++ l2) = join l1 +:+ join l2.
Proof.
  unfold join. induction l1 as [|x l1 IH]; simpl; [reflexivity|].
  now rewrite IH, append_assoc.
Qed.

(** Appending piece by piece, as [forEach] with [+=] does, builds the join. *)
Lemma foldl_append_join {A} (f : A -> string) (l : list A) (acc : string) :
  foldl (fun acc x => acc +:+ f x) acc l = acc +:+ join (map f l).
Proof.
  revert acc. induction l as [|x l IH]; intros acc; simpl.
  - now rewrite append_empty_r.
  - rewrite IH. unfold join. simpl. now rewrite append_assoc.
Qed.

(** ** The sort *)

Section SortFacts.
Context {A : Type}.
Variable cmp : A -> A -> Z.

(** A comparator that never throws makes the sort return. *)
Lemma sort_insert_total (comparefn : A -> A -> Completion Z) x l :
  (forall a b, comparefn a b = Normal (cmp a b)) ->
  sort_insert comparefn x l = Normal (insert_by cmp x l).
Proof.
  intros Hc. induction l as [|y l IH]; simpl; [reflexivity|].
  rewrite Hc. simpl. destruct (cmp x y <=? 0); [reflexivity|].
  now rewrite IH.
Qed.

Lemma sort_list_total (comparefn : A -> A -> Completion Z) l :
  (forall a b, comparefn a b = Normal (cmp a b)) ->
  sort_list comparefn l = Normal (sort_by cmp l).
Proof.
  intros Hc. induction l as [|x l IH]; simpl; [reflexivity|].
  rewrite IH. simpl. now apply sort_insert_total.
Qed.

Lemma insert_by_perm x l : insert_by cmp x l ≡ₚ x :: l.
Proof.
  induction l as [|y l IH]; simpl; [reflexivity|].
  destruct (cmp x y <=? 0); [reflexivity|].
  rewrite IH. apply Permutation_swap.
Qed.

Lemma sort_by_perm l : sort_by cmp l ≡ₚ l.
Proof.
  induction l as [|x l IH]; simpl; [reflexivity|].
  now rewrite insert_by_perm, IH.
Qed.

(** The output is ordered when the comparator is consistent. *)
Section Ordered.
Hypothesis cmp_total : forall a b, 0 < cmp a b -> cmp b a <= 0.
Hypothesis cmp_trans : forall a b c, cmp a b <= 0 -> cmp b c <= 0 -> cmp a c <= 0.

Let le (a b : A) : Prop := cmp a b <= 0.

Lemma insert_by_sorted x l :
  StronglySorted le l -> StronglySorted le (insert_by cmp x l).
Proof.
  induction l as [|y l IH]; simpl; intros Hs.
  - repeat constructor.
  - apply StronglySorted_inv in Hs as [Hs Hy].
    destruct (Z.leb_spec (cmp x y) 0) as [Hle|Hgt].
    + constructor; [now constructor|].
      constructor; [exact Hle|].
      eapply Forall_impl; [exact Hy|]. intros z Hz. unfold le in *. eauto.
    + constructor; [now apply IH|].
      rewrite insert_by_perm. constructor; [|exact Hy].
      unfold le. now apply cmp_total.
Qed.

Lemma sort_by_sorted l : StronglySorted le (sort_by cmp l).
Proof.
  induction l as [|x l IH]; simpl; [constructor | now apply insert_by_sorted].
Qed.
End Ordered.

(** Stability: the elements of a class whose members never compare
    greater than one another keep their input order. *)
Section Stable.
Variable P : A -> Prop.
Context `{!forall a, Decision (P a)}.
Hypothesis P_tied : forall a b, P a -> P b -> cmp a b <= 0.

Lemma insert_by_filter_in x l :
  P x -> filter P (insert_by cmp x l) = x :: filter P l.
Proof.
  intros Hx. induction l as [|y l IH]; simpl.
  - now rewrite filter_cons_True.
  - destruct (Z.leb_spec (cmp x y) 0) as [Hle|Hgt].
    + now rewrite filter_cons_True.
    + assert (~ P y) as Hy by (intros Hy; specialize (P_tied x y Hx Hy); lia).
      now rewrite !(filter_cons_False _ y), IH.
Qed.

Lemma insert_by_filter_out x l :
  ~ P x -> filter P (insert_by cmp x l) = filter P l.
Proof.
  intros Hx. induction l as [|y l IH]; simpl.
  - now rewrite filter_cons_False.
  - destruct (cmp x y <=? 0).
    + now rewrite filter_cons_False.
    + rewrite !(filter_cons P y). destruct (decide (P y)); now rewrite IH.
Qed.

Lemma sort_by_stable l : filter P (sort_by cmp l) = filter P l.
Proof.
  induction l as [|x l IH]; simpl; [reflexivity|].
  destruct (decide (P x)) as [Hx|Hx].
  - now rewrite insert_by_filter_in, filter_cons_True, IH.
  - now rewrite insert_by_filter_out, filter_cons_False, IH.
Qed.
End Stable.
End SortFacts.

(** Whatever the comparator does, a sort that returns has permuted its input. *)
Lemma sort_list_perm {A} (comparefn : A -> A -> Completion Z) (l l' : list A) :
  sort_list comparefn l = Normal l' -> l' ≡ₚ l.
Proof.
  assert (Hins : forall x s s', sort_insert comparefn x s = Normal s' -> s' ≡ₚ x :: s).
  { intros x s. induction s as [|y s IH]; simpl; intros s' Hs.
    - now inversion Hs.
    - destruct (comparefn x y) as [v|]; simpl in Hs; [|discriminate].
      destruct (v <=? 0); [now inversion Hs|].
      destruct (sort_insert comparefn x s) as [r|]; simpl in Hs; [|discriminate].
      inversion Hs; subst. rewrite (IH r eq_refl). apply Permutation_swap. }
  revert l'. induction l as [|x l IH]; simpl; intros l' Hs.
  - now inversion Hs.
  - destruct (sort_list comparefn l) as [s|]; simpl in Hs; [|discriminate].
    rewrite (Hins _ _ _ Hs). now rewrite (IH s eq_refl).
Qed.

(** ** Evaluating the [switch] *)

(** Runs the monadic operations that do not suspend. *)
Ltac run_sync :=
  repeat (cbn [mbind mret M_bind M_ret bind_step heap newsContainer briefingContainer
               sortOrderSelect console clock];
          unfold mbind, mret, M_bind, M_ret, get_sortOrder, get_clock, spread, Array_sort,
                 Array_forEach, array_get, array_new, array_set, set_newsContainer,
                 append_newsContainer, set_briefingContainer, console_error, throw,
                 await_rows, await_row,
                 with_heap, with_news, with_briefing, with_console, with_sortOrder;
          cbn [mbind mret M_bind M_ret bind_step heap newsContainer briefingContainer
               sortOrderSelect console clock]).

Lemma switch_sort_returns `{Host} asc desc src articles w :
  (forall a b, asc a b = Normal (cmp_date_asc a b)) ->
  (forall a b, desc a b = Normal (cmp_date_desc a b)) ->
  (forall a b, src a b = Normal (cmp_source_asc a b)) ->
  switch_sort asc desc src articles w =
  Return (fresh (dom (heap w)))
         (with_heap (<[fresh (dom (heap w)) := ordered (sortOrderSelect w) (heap w !!! articles)]>
                       (heap w)) w).
Proof.
  intros Ha Hd Hs. unfold switch_sort, ordered. run_sync.
  set (s := fresh (dom (heap w))). set (l := heap w !!! articles).
  destruct (String.eqb (sortOrderSelect w) "published_date_asc");
    [|destruct (String.eqb (sortOrderSelect w) "published_date_desc");
      [|destruct (String.eqb (sortOrderSelect w) "source_asc")]];
    run_sync; rewrite ?lookup_total_insert_eq;
    rewrite ?(sort_list_total _ _ _ Ha), ?(sort_list_total _ _ _ Hd), ?(sort_list_total _ _ _ Hs);
    run_sync; rewrite ?insert_insert_eq; reflexivity.
Qed.

Lemma for_each_append (card : Article -> string) l w :
  for_each l (fun article => append_newsContainer (card article)) w =
  Return tt (with_news (newsContainer w +:+ join (map card l)) w).
Proof.
  revert w. induction l as [|x l IH]; intros w; cbn [for_each]; run_sync.
  - change (join (map card [])) with "". rewrite append_empty_r. now destruct w.
  - rewrite IH. run_sync. unfold join. cbn [map foldr]. now rewrite append_assoc.
Qed.

Lemma paint_returns (card : Article -> string) s w :
  paint card s w = Return tt (with_news (join (map card (heap w !!! s))) w).
Proof.
  unfold paint, Array_forEach, mbind, M_bind, set_newsContainer, array_get.
  cbn [bind_step]. rewrite for_each_append. reflexivity.
Qed.

(** *** The comparators of the null-safe revisions never throw *)

Lemma Dashboard_by_date_asc `{Host} a b :
  Dashboard.by_date_asc a b = Normal (cmp_date_asc a b).
Proof.
  unfold Dashboard.by_date_asc, cmp_date_asc, effective_time.
  now destruct (published_date a), (published_date b).
Qed.

Lemma Dashboard_by_date_desc `{Host} a b :
  Dashboard.by_date_desc a b = Normal (cmp_date_desc a b).
Proof.
  unfold Dashboard.by_date_desc, cmp_date_desc, effective_time.
  now destruct (published_date a), (published_date b).
Qed.

Lemma Dashboard_by_source_asc `{Host} a b :
  Dashboard.by_source_asc a b = Normal (cmp_source_asc a b).
Proof. reflexivity. Qed.

Lemma Newsfeed_by_date_asc `{Host} a b :
  Newsfeed.by_date_asc a b = Normal (cmp_date_asc a b).
Proof. reflexivity. Qed.

Lemma Newsfeed_by_date_desc `{Host} a b :
  Newsfeed.by_date_desc a b = Normal (cmp_date_desc a b).
Proof.
  unfold Newsfeed.by_date_desc, cmp_date_desc, effective_time.
  now destruct (published_date a), (published_date b).
Qed.

Lemma Newsfeed_by_source_asc `{Host} a b :
  Newsfeed.by_source_asc a b = Normal (cmp_source_asc a b).
Proof. reflexivity. Qed.

Lemma Frontend_by_date_asc `{Host} a b :
  Frontend.by_date_asc a b = Normal (cmp_date_asc a b).
Proof. reflexivity. Qed.

Lemma Frontend_by_date_desc `{Host} a b :
  Frontend.by_date_desc a b = Normal (cmp_date_desc a b).
Proof. reflexivity. Qed.

(** *** The sort step and the render, evaluated *)

Lemma Dashboard_sortArticles_returns `{Host} articles w :
  Dashboard.sortArticles articles w =
  Return (fresh (dom (heap w)))
         (with_heap (<[fresh (dom (heap w)) := ordered (sortOrderSelect w) (heap w !!! articles)]>
                       (heap w)) w).
Proof.
  apply (switch_sort_returns Dashboard.by_date_asc Dashboard.by_date_desc
           Dashboard.by_source_asc);
    auto using Dashboard_by_date_asc, Dashboard_by_date_desc, Dashboard_by_source_asc.
Qed.

Lemma Newsfeed_sortArticles_returns `{Host} articles w :
  Newsfeed.sortArticles articles w =
  Return (fresh (dom (heap w)))
         (with_heap (<[fresh (dom (heap w)) := ordered (sortOrderSelect w) (heap w !!! articles)]>
                       (heap w)) w).
Proof.
  apply (switch_sort_returns Newsfeed.by_date_asc Newsfeed.by_date_desc
           Newsfeed.by_source_asc);
    auto using Newsfeed_by_date_asc, Newsfeed_by_date_desc, Newsfeed_by_source_asc.
Qed.

Lemma Dashboard_renderAggregatedNews_returns `{Host} articles w :
  Dashboard.renderAggregatedNews articles w =
  Return tt (rendered Dashboard.newsCard articles w).
Proof.
  unfold Dashboard.renderAggregatedNews. run_sync.
  rewrite Dashboard_sortArticles_returns. run_sync.
  change (Dashboard.renderArticles ?s) with (paint Dashboard.newsCard s).
  rewrite paint_returns. unfold rendered. run_sync.
  now rewrite lookup_total_insert_eq.
Qed.

Lemma Newsfeed_renderNews_returns `{Host} articles w :
  Newsfeed.renderNews articles w = Return tt (rendered Newsfeed.newsCard articles w).
Proof.
  unfold Newsfeed.renderNews. run_sync.
  rewrite Newsfeed_sortArticles_returns. run_sync.
  change (Newsfeed.renderArticles ?s) with (paint Newsfeed.newsCard s).
  rewrite paint_returns. unfold rendered. run_sync.
  now rewrite lookup_total_insert_eq.
Qed.

(** ** What the [switch] leaves in the copy *)

Lemma ordered_perm `{Host} order l : ordered order l ≡ₚ l.
Proof.
  unfold ordered.
  repeat match goal with |- context [String.eqb ?a ?b] => destruct (String.eqb a b) end;
    auto using sort_by_perm.
Qed.

Lemma sort_by_date_asc_ascending l : ascending (sort_by cmp_date_asc l).
Proof.
  unfold ascending.
  eapply StronglySorted_ind with (R := fun a b => cmp_date_asc a b <= 0).
  - constructor.
  - intros a l' _ IH Hall. constructor; [exact IH|].
    eapply Forall_impl; [exact Hall|]. unfold cmp_date_asc. intros; lia.
  - apply sort_by_sorted; unfold cmp_date_asc; intros; lia.
Qed.

Lemma sort_by_date_desc_descending l : descending (sort_by cmp_date_desc l).
Proof.
  unfold descending.
  eapply StronglySorted_ind with (R := fun a b => cmp_date_desc a b <= 0).
  - constructor.
  - intros a l' _ IH Hall. constructor; [exact IH|].
    eapply Forall_impl; [exact Hall|]. unfold cmp_date_desc. intros; lia.
  - apply sort_by_sorted; unfold cmp_date_desc; intros; lia.
Qed.

Lemma ordered_asc `{Host} l : ordered "published_date_asc" l = sort_by cmp_date_asc l.
Proof. reflexivity. Qed.

Lemma ordered_desc `{Host} l : ordered "published_date_desc" l = sort_by cmp_date_desc l.
Proof. reflexivity. Qed.

Lemma ordered_source `{Host} l : ordered "source_asc" l = sort_by cmp_source_asc l.
Proof. reflexivity. Qed.

(** In a strongly sorted list an element never stands before a strictly
    smaller one. *)
Lemma ascending_lookup l (i j : nat) x y :
  ascending l -> l !! i = Some x -> l !! j = Some y -> (i < j)%nat ->
  effective_time x <= effective_time y.
Proof.
  intros Hs. revert i j. induction Hs as [|a l Hs IH Hall]; intros i j Hi Hj Hlt.
  - discriminate.
  - destruct j as [|j]; [lia|]. cbn in Hj.
    destruct i as [|i]; cbn in Hi.
    + inversion Hi; subst. rewrite Forall_lookup in Hall. eauto.
    + apply (IH i j); [assumption..|lia].
Qed.

Lemma fresh_not_allocated (h : gmap loc (list Article)) a :
  is_Some (h !! a) -> fresh (dom h) <> a.
Proof.
  intros Ha Heq. apply elem_of_dom in Ha. rewrite <- Heq in Ha.
  exact (is_fresh (dom h) Ha).
Qed.

Lemma sorts_a_copy_of_returns `{Host} (sortArticles : loc -> M loc) articles w :
  sortArticles articles w =
    Return (fresh (dom (heap w)))
      (with_heap (<[fresh (dom (heap w)) := ordered (sortOrderSelect w) (heap w !!! articles)]>
                    (heap w)) w) ->
  is_Some (heap w !! articles) ->
  sorts_a_copy sortArticles articles w.
Proof.
  intros Hret Halloc. eexists _, _. split; [exact Hret|].
  pose proof (fresh_not_allocated _ _ Halloc) as Hne.
  cbn [heap with_heap]. repeat split.
  - exact Hne.
  - rewrite lookup_total_insert_eq. apply ordered_perm.
  - now rewrite lookup_insert_ne.
  - intros a Ha. rewrite lookup_insert_ne; [reflexivity|].
    now apply fresh_not_allocated.
Qed.

(** C6: for every order key the sort step of the null-safe revisions returns
    a new array that is a permutation of the input array, and the input
    array, like every other array of the page, is left as it was. *)
Theorem sortArticles_permutes_a_copy `{Host} (order : string) (w : World) (articles : loc) :
  is_Some (heap w !! articles) ->
  sorts_a_copy Dashboard.sortArticles articles (with_sortOrder order w) /\
  sorts_a_copy Newsfeed.sortArticles articles (with_sortOrder order w).
Proof.
  intros Halloc. split.
  - apply sorts_a_copy_of_returns; [apply Dashboard_sortArticles_returns | exact Halloc].
  - apply sorts_a_copy_of_returns; [apply Newsfeed_sortArticles_returns | exact Halloc].
Qed.

Lemma sortArticles_permutes_a_copy_witness :
  sorts_a_copy (Dashboard.sortArticles (H := sampleHost)) 0%nat
    (with_sortOrder "source_asc"
       (samplePage "" [sampleArticle "Z" (Some "Zeta") None; sampleArticle "A" (Some "Alpha") None])).
Proof.
  apply (sortArticles_permutes_a_copy (H := sampleHost) "source_asc"
           (samplePage "" [sampleArticle "Z" (Some "Zeta") None;
                           sampleArticle "A" (Some "Alpha") None]) 0%nat).
  vm_compute. eauto.
Defined.

(** ** Order by date *)

Lemma sorted_twice_of_returns `{Host} (sortArticles : loc -> M loc) first second articles w :
  (forall a w0, sortArticles a w0 =
     Return (fresh (dom (heap w0)))
       (with_heap (<[fresh (dom (heap w0)) := ordered (sortOrderSelect w0) (heap w0 !!! a)]>
                     (heap w0)) w0)) ->
  sorted_twice sortArticles first second articles w
    (ordered second (ordered first (heap w !!! articles))).
Proof.
  intros Hret. unfold sorted_twice. eexists _, _, _, _.
  split; [apply Hret|]. split; [apply Hret|].
  cbn [heap with_heap with_sortOrder sortOrderSelect].
  now rewrite !lookup_total_insert_eq.
Qed.

(** C7: sorting newest first and then oldest first leaves the articles in
    ascending order of publish timestamp, and sorting oldest first and then
    newest first leaves them in descending order; each time the result holds
    the same articles as the input. *)
Theorem date_orders_invert `{Host} (w : World) (articles : loc) :
  heap w !!! articles <> [] ->
  (exists up down,
     sorted_twice Dashboard.sortArticles "published_date_desc" "published_date_asc"
       articles w up /\
     sorted_twice Dashboard.sortArticles "published_date_asc" "published_date_desc"
       articles w down /\
     ascending up /\ descending down /\
     up ≡ₚ heap w !!! articles /\ down ≡ₚ heap w !!! articles) /\
  (exists up down,
     sorted_twice Newsfeed.sortArticles "published_date_desc" "published_date_asc"
       articles w up /\
     sorted_twice Newsfeed.sortArticles "published_date_asc" "published_date_desc"
       articles w down /\
     ascending up /\ descending down /\
     up ≡ₚ heap w !!! articles /\ down ≡ₚ heap w !!! articles).
Proof.
  intros _. split.
  - eexists _, _.
    split; [apply sorted_twice_of_returns, @Dashboard_sortArticles_returns|].
    split; [apply sorted_twice_of_returns, @Dashboard_sortArticles_returns|].
    rewrite !ordered_asc, !ordered_desc.
    split; [apply sort_by_date_asc_ascending|].
    split; [apply sort_by_date_desc_descending|].
    split; now rewrite !sort_by_perm.
  - eexists _, _.
    split; [apply sorted_twice_of_returns, @Newsfeed_sortArticles_returns|].
    split; [apply sorted_twice_of_returns, @Newsfeed_sortArticles_returns|].
    rewrite !ordered_asc, !ordered_desc.
    split; [apply sort_by_date_asc_ascending|].
    split; [apply sort_by_date_desc_descending|].
    split; now rewrite !sort_by_perm.
Qed.

Lemma date_orders_invert_witness :
  exists up down,
    sorted_twice (Dashboard.sortArticles (H := sampleHost))
      "published_date_desc" "published_date_asc" 0%nat
      (samplePage "" [sampleArticle "B" None (Some jan2024); sampleArticle "A" None None])
      up /\
    sorted_twice (Dashboard.sortArticles (H := sampleHost))
      "published_date_asc" "published_date_desc" 0%nat
      (samplePage "" [sampleArticle "B" None (Some jan2024); sampleArticle "A" None None])
      down /\
    ascending up /\ descending down.
Proof.
  destruct (date_orders_invert (H := sampleHost)
              (samplePage "" [sampleArticle "B" None (Some jan2024); sampleArticle "A" None None])
              0%nat) as [(up & down & H1 & H2 & H3 & H4 & _) _].
  - vm_compute. discriminate.
  - exists up, down. auto.
Defined.

(** The amended rule for oldest first: a missing date counts as the epoch. *)
Lemma precedes_of_ascending l x y :
  ascending l -> effective_time x < effective_time y -> precedes l x y.
Proof.
  intros Hs Hlt i j Hi Hj.
  destruct (Nat.lt_trichotomy i j) as [Hij|[Hij|Hij]]; [exact Hij| |].
  - subst j. rewrite Hi in Hj. inversion Hj; subst. lia.
  - pose proof (ascending_lookup _ _ _ _ _ Hs Hj Hi Hij). lia.
Qed.

(** C2, as the code has it: under [published_date_asc] the sorted copy holds
    the input articles in ascending order of timestamp, where a missing date
    counts as the epoch (time value 0); so an article without a date stands
    before every article dated after the epoch.  In all three revisions. *)
Theorem missing_date_sorts_as_epoch `{Host} (w : World) (articles : loc)
    (x y : Article) (t : Z) :
  published_date x = None -> published_date y = Some t -> 0 < t ->
  sorts_oldest_first Dashboard.sortArticles articles w x y /\
  sorts_oldest_first Frontend.sortArticles articles w x y /\
  sorts_oldest_first Newsfeed.sortArticles articles w x y.
Proof.
  intros Hx Hy Ht.
  assert (forall sortArticles,
    sortArticles articles (with_sortOrder "published_date_asc" w) =
      Return (fresh (dom (heap w)))
        (with_heap (<[fresh (dom (heap w)) := sort_by cmp_date_asc (heap w !!! articles)]>
                      (heap w)) (with_sortOrder "published_date_asc" w)) ->
    sorts_oldest_first sortArticles articles w x y) as Hall.
  { intros sortArticles Hret. eexists _, _. split; [exact Hret|].
    cbn [heap with_heap]. rewrite lookup_total_insert_eq.
    split; [apply sort_by_perm|]. split; [apply sort_by_date_asc_ascending|].
    apply precedes_of_ascending; [apply sort_by_date_asc_ascending|].
    unfold effective_time. rewrite Hx, Hy. cbn. lia. }
  repeat split; apply Hall.
  - now rewrite Dashboard_sortArticles_returns.
  - unfold Frontend.sortArticles. run_sync. rewrite String.eqb_refl. run_sync.
    rewrite lookup_total_insert_eq.
    rewrite (sort_list_total cmp_date_asc) by (intros; apply Frontend_by_date_asc).
    run_sync. now rewrite insert_insert_eq.
  - now rewrite Newsfeed_sortArticles_returns.
Qed.

Lemma missing_date_sorts_as_epoch_witness :
  sorts_oldest_first (Dashboard.sortArticles (H := sampleHost)) 0%nat
    (samplePage "" [sampleArticle "B" None (Some jan2024); sampleArticle "A" None None])
    (sampleArticle "A" None None) (sampleArticle "B" None (Some jan2024)).
Proof.
  apply (missing_date_sorts_as_epoch (H := sampleHost)
           (samplePage "" [sampleArticle "B" None (Some jan2024); sampleArticle "A" None None])
           0%nat (sampleArticle "A" None None) (sampleArticle "B" None (Some jan2024)) jan2024).
  - reflexivity.
  - reflexivity.
  - vm_compute. reflexivity.
Defined.

(** C2, as stated, fails: an article dated before the epoch is sorted ahead
    of an article without a date. *)
Lemma missing_date_not_first :
  exists s w',
    Dashboard.sortArticles (H := sampleHost) 0%nat
      (samplePage "published_date_asc"
         [sampleArticle "A" None None; sampleArticle "B" None (Some year1960)])
      = Return s w' /\
    heap w' !!! s = [sampleArticle "B" None (Some year1960); sampleArticle "A" None None] /\
    ~ missing_dates_first (heap w' !!! s).
Proof.
  eexists _, _. split; [apply Dashboard_sortArticles_returns|].
  match goal with |- ?out = ?l /\ _ =>
    assert (out = l) as Hout by (vm_compute; reflexivity); rewrite Hout
  end.
  split; [reflexivity|].
  intros Hfirst.
  pose proof (Hfirst (sampleArticle "A" None None) (sampleArticle "B" None (Some year1960))
                eq_refl (mk_is_Some _ _ eq_refl) 1%nat 0%nat eq_refl eq_refl).
  lia.
Qed.

(** ** Order by source *)

Section Collation.
Context `{HostLaws}.

Lemma localeCompare_refl a : localeCompare a a = 0.
Proof.
  pose proof (localeCompare_antisym a a) as Ha.
  apply Z.sgn_null_iff. lia.
Qed.

Lemma localeCompare_sym_tie a b : localeCompare a b = 0 -> localeCompare b a = 0.
Proof.
  intros Hab. pose proof (localeCompare_antisym b a) as Ha.
  rewrite Hab in Ha. now apply Z.sgn_null_iff.
Qed.

Lemma localeCompare_total a b : 0 < localeCompare a b -> localeCompare b a <= 0.
Proof.
  intros Hab. pose proof (localeCompare_antisym b a) as Ha.
  rewrite (Z.sgn_pos (localeCompare a b)) in Ha by exact Hab.
  destruct (Z.sgn_spec (localeCompare b a)) as [[? ?]|[[? ?]|[? ?]]]; lia.
Qed.

(** Under [source_asc] the copy is ordered by the locale comparison of the
    sources, a missing source read as the empty string. *)
Lemma ordered_by_source l :
  StronglySorted (fun a b => localeCompare (effective_source a) (effective_source b) <= 0)
    (ordered "source_asc" l).
Proof.
  rewrite ordered_source.
  apply (sort_by_sorted cmp_source_asc); unfold cmp_source_asc.
  - intros a b. apply localeCompare_total.
  - intros a b c. apply localeCompare_trans.
Qed.

Lemma ordered_stable order (x y : Article) l :
  same_key order x y ->
  filter (fun z => z = x \/ z = y) (ordered order l) = filter (fun z => z = x \/ z = y) l.
Proof.
  unfold same_key, ordered. intros Hkey.
  destruct (String.eqb order "published_date_asc");
    [|destruct (String.eqb order "published_date_desc");
      [|destruct (String.eqb order "source_asc")]].
  - apply sort_by_stable. unfold cmp_date_asc. intros a b [->| ->] [->| ->]; lia.
  - apply sort_by_stable. unfold cmp_date_desc. intros a b [->| ->] [->| ->]; lia.
  - apply sort_by_stable. unfold cmp_source_asc in *.
    pose proof (localeCompare_sym_tie _ _ Hkey).
    pose proof (localeCompare_refl (effective_source x)).
    pose proof (localeCompare_refl (effective_source y)).
    intros a b [->| ->] [->| ->]; lia.
  - reflexivity.
Qed.
End Collation.

(** The stand-in collation of the sample host is a consistent comparator. *)
Lemma codeUnitCompare_le a b : codeUnitCompare a b <= 0 <-> String.le a b.
Proof.
  unfold codeUnitCompare, String.le, String.leb.
  destruct (String.compare a b); cbn; split; intros; try lia; easy.
Qed.

#[global] Instance sampleHost_laws : HostLaws sampleHost.
Proof.
  split; cbn [localeCompare sampleHost].
  - intros a b. unfold codeUnitCompare. rewrite (String.compare_antisym a b).
    now destruct (String.compare b a).
  - intros a b c. rewrite !codeUnitCompare_le. apply transitivity.
Qed.

(** C8: the sort step is stable for every order key: the occurrences of two
    articles whose sort keys tie appear in the sorted copy in the order they
    had in the input. *)
Theorem sort_is_stable `{HostLaws} (order : string) (w : World) (articles : loc)
    (x y : Article) :
  same_key order x y ->
  exists s w',
    Dashboard.sortArticles articles (with_sortOrder order w) = Return s w' /\
    filter (fun z => z = x \/ z = y) (heap w' !!! s) =
    filter (fun z => z = x \/ z = y) (heap w !!! articles).
Proof.
  intros Hkey. eexists _, _. split; [apply Dashboard_sortArticles_returns|].
  cbn [heap with_heap with_sortOrder sortOrderSelect].
  rewrite lookup_total_insert_eq. now apply ordered_stable.
Qed.

Lemma sort_is_stable_witness :
  exists s w',
    Dashboard.sortArticles (H := sampleHost) 0%nat
      (with_sortOrder "published_date_desc"
         (samplePage "" [sampleArticle "A" None None; sampleArticle "C" None (Some jan2024);
                         sampleArticle "B" None (Some 0)])) = Return s w' /\
    filter (fun z => z = sampleArticle "A" None None \/ z = sampleArticle "B" None (Some 0))
      (heap w' !!! s) =
    [sampleArticle "A" None None; sampleArticle "B" None (Some 0)].
Proof.
  apply (sort_is_stable (H := sampleHost) "published_date_desc"
           (samplePage "" [sampleArticle "A" None None; sampleArticle "C" None (Some jan2024);
                           sampleArticle "B" None (Some 0)])
           0%nat (sampleArticle "A" None None) (sampleArticle "B" None (Some 0))).
  vm_compute. reflexivity.
Defined.

(** Stability, class by class: the articles that tie with a given article
    keep their input order. *)
Lemma ordered_keeps_tie_classes `{HostLaws} (r : Article) (l : list Article) :
  filter (fun z => cmp_source_asc r z = 0) (ordered "source_asc" l)
    = filter (fun z => cmp_source_asc r z = 0) l /\
  filter (fun z => effective_time z = effective_time r) (ordered "published_date_asc" l)
    = filter (fun z => effective_time z = effective_time r) l /\
  filter (fun z => effective_time z = effective_time r) (ordered "published_date_desc" l)
    = filter (fun z => effective_time z = effective_time r) l.
Proof.
  rewrite ordered_source, ordered_asc, ordered_desc. repeat split.
  - apply sort_by_stable. unfold cmp_source_asc. intros a b Ha Hb.
    apply (localeCompare_trans _ (effective_source r)).
    + apply localeCompare_sym_tie in Ha. lia.
    + lia.
  - apply sort_by_stable. unfold cmp_date_asc. intros a b Ha Hb. lia.
  - apply sort_by_stable. unfold cmp_date_desc. intros a b Ha Hb. lia.
Qed.

(** The scenarios of the specification, run on the sample host. *)
Example scenario_missing_date_first :
  match Dashboard.sortArticles (H := sampleHost) 0%nat
          (samplePage "published_date_asc"
             [sampleArticle "A" None None; sampleArticle "B" None (Some jan2024)])
  with
  | Return s w' => map title (heap w' !!! s) = ["A"%string; "B"%string]
  | _ => False
  end.
Proof. vm_compute. reflexivity. Qed.

Example scenario_missing_source_first :
  match Dashboard.sortArticles (H := sampleHost) 0%nat
          (samplePage "source_asc"
             [sampleArticle "1" (Some "Zeta") None; sampleArticle "2" None None;
              sampleArticle "3" (Some "Alpha") None])
  with
  | Return s w' => map source (heap w' !!! s) = [None; Some "Alpha"%string; Some "Zeta"%string]
  | _ => False
  end.
Proof. vm_compute. reflexivity. Qed.

(** ** The briefing view *)

Lemma briefingHtml_sections (b : Briefing) :
  Dashboard.briefingHtml_of b =
  heading_section b +:+ summary_section b +:+ developments_section b +:+
  implications_section b +:+ reactions_section b +:+ urls_section b.
Proof.
  unfold Dashboard.briefingHtml_of, heading_section, summary_section, developments_section,
    implications_section, reactions_section, urls_section.
  cbv zeta.
  rewrite !(foldl_append_join (fun item => "<li>" +:+ item +:+ "</li>")).
  rewrite !(foldl_append_join
              (fun url_ => "<li><a " +:+ attr "href" url_ +:+ " " +:+ attr "target" "_blank"
                             +:+ ">" +:+ url_ +:+ "</a></li>")).
  destruct (has_items (key_developments b)), (truthy (strategic_implications b)),
    (truthy (suggested_reactions b)), (has_items (related_article_urls b));
    rewrite ?append_assoc, ?append_empty_r; reflexivity.
Qed.

Lemma or_else_absent (v : option string) (d : string) : absent v -> or_else v d = d.
Proof. now intros [->| ->]. Qed.

Lemma truthy_absent (v : option string) : absent v -> truthy v = false.
Proof. now intros [->| ->]. Qed.

Lemma has_items_absent (v : option (list string)) : absent_list v -> has_items v = false.
Proof. now intros [->| ->]. Qed.

(** C10: the briefing view is the heading, the executive-summary paragraph
    and the four optional sections, in this order.  The summary paragraph is
    always there, with the text No summary available. when [summary_text] is
    absent or empty; each of the other four sections contributes nothing at
    all when its field is absent or empty. *)
Theorem briefing_view_sections (b : Briefing) (w : World) :
  Dashboard.renderBriefing b w =
    Return tt (with_briefing
                 (heading_section b +:+ summary_section b +:+ developments_section b +:+
                  implications_section b +:+ reactions_section b +:+ urls_section b) w) /\
  (exists text, summary_section b =
                "<p><strong>Executive Summary:</strong> " +:+ text +:+ "</p>") /\
  (absent (summary_text b) ->
   summary_section b = "<p><strong>Executive Summary:</strong> No summary available.</p>") /\
  (absent_list (key_developments b) -> developments_section b = "") /\
  (absent (strategic_implications b) -> implications_section b = "") /\
  (absent (suggested_reactions b) -> reactions_section b = "") /\
  (absent_list (related_article_urls b) -> urls_section b = "").
Proof.
  split; [|split; [|repeat split]].
  - unfold Dashboard.renderBriefing, set_briefingContainer.
    now rewrite briefingHtml_sections.
  - eexists. reflexivity.
  - intros Ha. unfold summary_section. now rewrite or_else_absent.
  - intros Ha. unfold developments_section. now rewrite has_items_absent.
  - intros Ha. unfold implications_section. now rewrite truthy_absent.
  - intros Ha. unfold reactions_section. now rewrite truthy_absent.
  - intros Ha. unfold urls_section. now rewrite has_items_absent.
Qed.

Lemma briefing_view_sections_witness :
  Dashboard.renderBriefing sampleBriefing blankPage =
  Return tt (with_briefing
    "<h3>AI Morning Briefing</h3><p><strong>Executive Summary:</strong> No summary available.</p>"
    blankPage).
Proof.
  destruct (briefing_view_sections sampleBriefing blankPage)
    as (Hview & _ & Hsum & Hdev & Himp & Hrea & Hurl).
  rewrite Hview.
  rewrite Hsum by (right; reflexivity).
  rewrite Hdev by (right; reflexivity).
  rewrite Himp by (left; reflexivity).
  rewrite Hrea by (right; reflexivity).
  rewrite Hurl by (left; reflexivity).
  reflexivity.
Defined.

(** ** Rendering the article list *)

Lemma rendered_idempotent `{Host} (render : loc -> M unit) (card : Article -> string)
    articles w previous :
  (forall a w0, render a w0 = Return tt (rendered card a w0)) ->
  is_Some (heap w !! articles) ->
  renders_idempotently render articles w previous.
Proof.
  intros Hret Halloc. unfold renders_idempotently.
  eexists _, _, _.
  split; [apply Hret|]. split; [apply Hret|]. split; [apply Hret|].
  unfold rendered, with_news, with_heap. cbn [newsContainer heap sortOrderSelect].
  rewrite lookup_total_insert_ne by now apply fresh_not_allocated.
  split; reflexivity.
Qed.

(** C9: rendering the article list is idempotent in the null-safe revisions:
    a second render of the same array shows exactly the cards of the first,
    and whatever the region showed before a render is replaced, not kept. *)
Theorem render_is_idempotent `{Host} (w : World) (articles : loc) (previous : string) :
  is_Some (heap w !! articles) ->
  renders_idempotently Dashboard.renderAggregatedNews articles w previous /\
  renders_idempotently Newsfeed.renderNews articles w previous.
Proof.
  intros Halloc. split.
  - apply (rendered_idempotent _ Dashboard.newsCard);
      [apply @Dashboard_renderAggregatedNews_returns | exact Halloc].
  - apply (rendered_idempotent _ Newsfeed.newsCard);
      [apply @Newsfeed_renderNews_returns | exact Halloc].
Qed.

Lemma render_is_idempotent_witness :
  renders_idempotently (Dashboard.renderAggregatedNews (H := sampleHost)) 0%nat
    (samplePage "published_date_asc"
       [sampleArticle "B" (Some "Zeta") (Some jan2024); sampleArticle "A" None None])
    "<p>Loading news articles...</p>".
Proof.
  apply (render_is_idempotent (H := sampleHost)
           (samplePage "published_date_asc"
              [sampleArticle "B" (Some "Zeta") (Some jan2024); sampleArticle "A" None None])
           0%nat "<p>Loading news articles...</p>").
  vm_compute. eauto.
Defined.

(** ** Remote reads *)

(** The revision of [src/frontend/script.js] never suspends inside a render. *)
Lemma Frontend_renderNews_sync `{Host} articles w remote :
  issued (run remote (Frontend.renderNews articles w)) = [].
Proof.
  unfold Frontend.renderNews, Frontend.sortArticles. run_sync.
  change (Frontend.renderArticles ?s) with (paint Frontend.newsCard s).
  repeat match goal with
         | |- context [String.eqb ?a ?b] => destruct (String.eqb a b); run_sync
         | |- context [sort_list ?c ?l] => destruct (sort_list c l); run_sync
         end;
    rewrite ?paint_returns; reflexivity.
Qed.

Lemma Dashboard_fetch_issued `{Host} remote w :
  issued (run remote (Dashboard.fetchAndRenderAggregatedNews w)) = [SelectAll "articles" None].
Proof.
  unfold Dashboard.fetchAndRenderAggregatedNews. run_sync. cbn [run issued]. f_equal.
  destruct (rows_of remote (SelectAll "articles" None)) as [[rows|] [e|]];
    cbn [error data]; run_sync; try reflexivity.
  destruct (Nat.eqb (length rows) 0); run_sync; [reflexivity|].
  now rewrite Dashboard_renderAggregatedNews_returns.
Qed.

Lemma Newsfeed_fetch_issued `{Host} remote w :
  issued (run remote (Newsfeed.fetchNewsAndRender w)) = [SelectAll "articles" None].
Proof.
  unfold Newsfeed.fetchNewsAndRender. run_sync. cbn [run issued]. f_equal.
  destruct (rows_of remote (SelectAll "articles" None)) as [[rows|] [e|]];
    cbn [error data]; run_sync; try reflexivity.
  destruct (Nat.eqb (length rows) 0); run_sync; [reflexivity|].
  now rewrite Newsfeed_renderNews_returns.
Qed.

Lemma Frontend_change_issued `{Host} remote w :
  issued (run remote (Frontend.onSortOrderChange w)) = [SelectAll "articles" None].
Proof.
  unfold Frontend.onSortOrderChange. run_sync. cbn [run issued]. f_equal.
  destruct (rows_of remote (SelectAll "articles" None)) as [[rows|] [e|]];
    cbn [error data]; run_sync; try reflexivity.
  apply Frontend_renderNews_sync.
Qed.

Lemma Dashboard_fetch_success `{Host} remote w rows :
  rows_of remote (SelectAll "articles" None) = {| data := Some rows; error := None |} ->
  rows <> [] ->
  newsContainer (final (run remote (Dashboard.fetchAndRenderAggregatedNews w))) =
  join (map Dashboard.newsCard (ordered (sortOrderSelect w) rows)).
Proof.
  intros Hr Hrows. unfold Dashboard.fetchAndRenderAggregatedNews. run_sync. cbn [run final].
  rewrite Hr. cbn [error data]. destruct rows as [|a rows]; [congruence|].
  cbn [length Nat.eqb]. run_sync. rewrite Dashboard_renderAggregatedNews_returns.
  unfold rendered, with_news, with_heap. cbn [run final newsContainer heap sortOrderSelect].
  now rewrite lookup_total_insert_eq.
Qed.

Lemma Newsfeed_fetch_success `{Host} remote w rows :
  rows_of remote (SelectAll "articles" None) = {| data := Some rows; error := None |} ->
  rows <> [] ->
  newsContainer (final (run remote (Newsfeed.fetchNewsAndRender w))) =
  join (map Newsfeed.newsCard (ordered (sortOrderSelect w) rows)).
Proof.
  intros Hr Hrows. unfold Newsfeed.fetchNewsAndRender. run_sync. cbn [run final].
  rewrite Hr. cbn [error data]. destruct rows as [|a rows]; [congruence|].
  cbn [length Nat.eqb]. run_sync. rewrite Newsfeed_renderNews_returns.
  unfold rendered, with_news, with_heap. cbn [run final newsContainer heap sortOrderSelect].
  now rewrite lookup_total_insert_eq.
Qed.

(** C1, as the code has it: in all three revisions every change of the sort
    order issues exactly one new remote read of the whole article
    collection, whatever was loaded before; no article set is kept to sort
    again.  In the null-safe revisions a read that succeeds with articles is
    followed by the cards of the fetched articles in the chosen order. *)
Theorem change_always_refetches `{Host} (remote : Remote) (order : string) (w : World) :
  issued (run remote (change_event order Dashboard.onSortOrderChange w))
    = [SelectAll "articles" None] /\
  issued (run remote (change_event order Frontend.onSortOrderChange w))
    = [SelectAll "articles" None] /\
  issued (run remote (change_event order Newsfeed.onSortOrderChange w))
    = [SelectAll "articles" None] /\
  (forall rows,
     rows_of remote (SelectAll "articles" None) = {| data := Some rows; error := None |} ->
     rows <> [] ->
     newsContainer (final (run remote (change_event order Dashboard.onSortOrderChange w)))
       = join (map Dashboard.newsCard (ordered order rows)) /\
     newsContainer (final (run remote (change_event order Newsfeed.onSortOrderChange w)))
       = join (map Newsfeed.newsCard (ordered order rows))).
Proof.
  unfold change_event. split; [|split; [|split]].
  - apply Dashboard_fetch_issued.
  - apply Frontend_change_issued.
  - apply Newsfeed_fetch_issued.
  - intros rows Hr Hrows. split.
    + now apply (Dashboard_fetch_success remote (with_sortOrder order w)).
    + now apply (Newsfeed_fetch_success remote (with_sortOrder order w)).
Qed.

Lemma change_always_refetches_witness :
  issued (run sampleRemote
            (change_event "source_asc" (Dashboard.onSortOrderChange (H := sampleHost)) blankPage))
    = [SelectAll "articles" None] /\
  newsContainer (final (run sampleRemote
            (change_event "source_asc" (Dashboard.onSortOrderChange (H := sampleHost)) blankPage)))
    = join (map (Dashboard.newsCard (H := sampleHost))
              [sampleArticle "A" (Some "Alpha") None;
               sampleArticle "B" (Some "Zeta") (Some jan2024)]).
Proof.
  destruct (change_always_refetches (H := sampleHost) sampleRemote "source_asc" blankPage)
    as (Hread & _ & _ & Hshow).
  split; [exact Hread|].
  apply (Hshow [sampleArticle "B" (Some "Zeta") (Some jan2024);
                sampleArticle "A" (Some "Alpha") None]).
  - reflexivity.
  - discriminate.
Defined.

(** C1, as stated, fails: with two articles loaded and shown, a change of
    the sort order reads the remote collection again. *)
Lemma change_refetches_loaded_page :
  newsContainer (final (run sampleRemote
      (Dashboard.fetchAndRenderAggregatedNews (H := sampleHost) blankPage))) <> ""%string /\
  ~ reorders_without_fetch (Dashboard.fetchAndRenderAggregatedNews (H := sampleHost))
      (Dashboard.onSortOrderChange (H := sampleHost)) sampleRemote blankPage "source_asc".
Proof.
  split.
  - vm_compute. discriminate.
  - unfold reorders_without_fetch, change_event, Dashboard.onSortOrderChange.
    rewrite Dashboard_fetch_issued. discriminate.
Qed.

(** ** Failures of a remote read *)

(** The loading functions of all three revisions log a failed read and show
    a message. *)
Lemma Dashboard_fetch_failure `{Host} remote w d e :
  rows_of remote (SelectAll "articles" None) = {| data := d; error := Some e |} ->
  final (run remote (Dashboard.fetchAndRenderAggregatedNews w)) =
  with_news "<p>Failed to load news articles. Please try again later.</p>"
    (with_console (console w ++ [("Error fetching articles:"%string, message e)]) w).
Proof.
  intros Hr. unfold Dashboard.fetchAndRenderAggregatedNews. run_sync. cbn [run final].
  rewrite Hr. cbn [error data]. run_sync. reflexivity.
Qed.

Lemma Newsfeed_fetch_failure `{Host} remote w d e :
  rows_of remote (SelectAll "articles" None) = {| data := d; error := Some e |} ->
  final (run remote (Newsfeed.fetchNewsAndRender w)) =
  with_news "<p>Failed to load news. Please try again later.</p>"
    (with_console (console w ++ [("Error fetching articles:"%string, message e)]) w).
Proof.
  intros Hr. unfold Newsfeed.fetchNewsAndRender. run_sync. cbn [run final].
  rewrite Hr. cbn [error data]. run_sync. reflexivity.
Qed.

Lemma Frontend_fetchNews_failure `{Host} remote w d e :
  rows_of remote (SelectAll "articles" (Some ("published_date"%string, false)))
    = {| data := d; error := Some e |} ->
  final (run remote (Frontend.fetchNews w)) =
  with_news "<p>Failed to load news. Please try again later.</p>"
    (with_console (console w ++ [("Error fetching articles:"%string, message e)]) w).
Proof.
  intros Hr. unfold Frontend.fetchNews. run_sync. cbn [run final].
  rewrite Hr. cbn [error data]. run_sync. reflexivity.
Qed.

(** C4 fails in [src/frontend/script.js]: when the read started by a change
    of the sort order fails, its listener returns without touching the
    region or the console, so the page keeps showing what it showed. *)
Theorem Frontend_change_drops_failure `{Host} (remote : Remote) (order : string) (w : World)
    (d : option (list Article)) (e : PostgrestError) :
  rows_of remote (SelectAll "articles" None) = {| data := d; error := Some e |} ->
  run remote (change_event order Frontend.onSortOrderChange w) =
  {| issued := [SelectAll "articles" None]; outcome := Normal tt;
     final := with_sortOrder order w |}.
Proof.
  intros Hr. unfold change_event, Frontend.onSortOrderChange. run_sync. cbn [run].
  rewrite Hr. cbn [error data]. destruct d; run_sync; reflexivity.
Qed.

Lemma Frontend_change_drops_failure_witness :
  newsContainer (final (run failingRemote
    (change_event "source_asc" (Frontend.onSortOrderChange (H := sampleHost))
       (samplePage "published_date_desc" [sampleArticle "A" None None]))))
    = "<p>Loading news...</p>"%string /\
  console (final (run failingRemote
    (change_event "source_asc" (Frontend.onSortOrderChange (H := sampleHost))
       (samplePage "published_date_desc" [sampleArticle "A" None None]))))
    = [].
Proof.
  rewrite (Frontend_change_drops_failure (H := sampleHost) failingRemote "source_asc"
             (samplePage "published_date_desc" [sampleArticle "A" None None])
             None {| code := ""; message := "TypeError: Failed to fetch" |})
    by reflexivity.
  split; reflexivity.
Defined.

(** C3 fails in [src/frontend/script.js]: sorting two articles without a
    source under [source_asc] throws, and the region is not repainted. *)
Theorem Frontend_source_sort_throws `{Host} :
  match Frontend.renderNews 0%nat
          (samplePage "source_asc" [sampleArticle "A" None None; sampleArticle "B" None None])
  with
  | Throw msg w' =>
      msg = "Cannot read properties of null (reading 'localeCompare')"%string /\
      newsContainer w' = "<p>Loading news...</p>"%string
  | _ => False
  end.
Proof. vm_compute. split; reflexivity. Qed.

(** In the null-safe revisions the same sort returns, and orders the copy by
    the locale comparison with a missing source read as the empty string. *)
Lemma Dashboard_source_sort_ordered `{HostLaws} (w : World) (articles : loc) :
  exists s w',
    Dashboard.sortArticles articles (with_sortOrder "source_asc" w) = Return s w' /\
    heap w' !!! s ≡ₚ heap w !!! articles /\
    StronglySorted
      (fun a b => localeCompare (or_else (source a) "") (or_else (source b) "") <= 0)
      (heap w' !!! s).
Proof.
  eexists _, _. split; [apply Dashboard_sortArticles_returns|].
  cbn [heap with_heap with_sortOrder sortOrderSelect]. rewrite lookup_total_insert_eq.
  split; [apply ordered_perm | apply ordered_by_source].
Qed.

Lemma Newsfeed_source_sort_ordered `{HostLaws} (w : World) (articles : loc) :
  exists s w',
    Newsfeed.sortArticles articles (with_sortOrder "source_asc" w) = Return s w' /\
    heap w' !!! s ≡ₚ heap w !!! articles /\
    StronglySorted
      (fun a b => localeCompare (or_else (source a) "") (or_else (source b) "") <= 0)
      (heap w' !!! s).
Proof.
  eexists _, _. split; [apply Newsfeed_sortArticles_returns|].
  cbn [heap with_heap with_sortOrder sortOrderSelect]. rewrite lookup_total_insert_eq.
  split; [apply ordered_perm | apply ordered_by_source].
Qed.

(** ** The briefing lookup *)

Lemma briefingHtml_not_a_message (b : Briefing) :
  Dashboard.briefingHtml_of b <> briefing_unavailable /\
  Dashboard.briefingHtml_of b <> briefing_failed.
Proof.
  rewrite briefingHtml_sections. unfold heading_section, briefing_unavailable, briefing_failed.
  split; intros Heq; rewrite !append_cons in Heq; discriminate.
Qed.

(** C5: the briefing lookup issues one single-row read and ends in one of
    three outcomes.  A row shows the briefing view; the no-rows answer
    (code PGRST116) shows the nothing-available text and logs nothing; any
    other error shows the failure text and logs the error.  The three
    presentations differ from one another. *)
Theorem briefing_lookup_outcomes `{Host} (remote : Remote) (w : World) :
  let r := run remote (Dashboard.fetchDailyBriefing w) in
  issued r = [todays_query w] /\
  outcome r = Normal tt /\
  (forall b,
     row_of remote (todays_query w) = {| data := Some b; error := None |} ->
     final r = with_briefing (Dashboard.briefingHtml_of b) w) /\
  (forall e,
     row_of remote (todays_query w) = {| data := None; error := Some e |} ->
     code e = "PGRST116"%string ->
     final r = with_briefing briefing_unavailable w) /\
  (forall d e,
     row_of remote (todays_query w) = {| data := d; error := Some e |} ->
     code e <> "PGRST116"%string ->
     final r = with_briefing briefing_failed
                 (with_console
                    (console w ++ [("Error fetching daily briefing:"%string, message e)]) w)) /\
  (forall b, Dashboard.briefingHtml_of b <> briefing_unavailable /\
             Dashboard.briefingHtml_of b <> briefing_failed) /\
  briefing_unavailable <> briefing_failed.
Proof.
  cbv zeta. unfold Dashboard.fetchDailyBriefing, Dashboard.renderBriefing, todays_query.
  run_sync. cbn [run issued outcome final].
  set (q := SelectSingle _ _ _).
  split; [|split; [|split; [|split; [|split; [|split]]]]].
  - destruct (row_of remote q) as [[b|] [e|]]; cbn [error data];
      try destruct (negb _); run_sync; reflexivity.
  - destruct (row_of remote q) as [[b|] [e|]]; cbn [error data];
      try destruct (negb _); run_sync; reflexivity.
  - intros b ->. cbn [error data]. run_sync. reflexivity.
  - intros e -> Hcode. cbn [error data]. rewrite Hcode. cbn [String.eqb]. run_sync.
    reflexivity.
  - intros d e -> Hcode. cbn [error data].
    apply String.eqb_neq in Hcode. rewrite Hcode. cbn [negb]. run_sync. reflexivity.
  - apply briefingHtml_not_a_message.
  - discriminate.
Qed.

Lemma briefing_lookup_outcomes_witness :
  final (run briefingRemote (Dashboard.fetchDailyBriefing (H := sampleHost) blankPage))
    = with_briefing (Dashboard.briefingHtml_of sampleBriefing) blankPage /\
  final (run sampleRemote (Dashboard.fetchDailyBriefing (H := sampleHost) blankPage))
    = with_briefing briefing_unavailable blankPage /\
  final (run failingRemote (Dashboard.fetchDailyBriefing (H := sampleHost) blankPage))
    = with_briefing briefing_failed
        (with_console [("Error fetching daily briefing:"%string,
                        "TypeError: Failed to fetch"%string)] blankPage).
Proof.
  destruct (briefing_lookup_outcomes (H := sampleHost) briefingRemote blankPage)
    as (_ & _ & Hfound & _).
  destruct (briefing_lookup_outcomes (H := sampleHost) sampleRemote blankPage)
    as (_ & _ & _ & Hnone & _).
  destruct (briefing_lookup_outcomes (H := sampleHost) failingRemote blankPage)
    as (_ & _ & _ & _ & Hfail & _).
  split; [|split].
  - apply Hfound. reflexivity.
  - apply (Hnone {| code := "PGRST116";
                    message := "JSON object requested, multiple (or no) rows returned" |});
      reflexivity.
  - apply (Hfail None {| code := ""; message := "TypeError: Failed to fetch" |});
      [reflexivity | discriminate].
Defined.


(** * Further properties of the scripts *)

(** ** The render of [src/frontend/script.js], evaluated *)

Lemma Frontend_sortArticles_eval `{Host} articles w :
  Frontend.sortArticles articles w =
  match Frontend_ordered (sortOrderSelect w) (heap w !!! articles) with
  | Normal l' =>
      Return (fresh (dom (heap w))) (with_heap (<[fresh (dom (heap w)) := l']> (heap w)) w)
  | ThrowTypeError msg =>
      Throw msg (with_heap (<[fresh (dom (heap w)) := heap w !!! articles]> (heap w)) w)
  end.
Proof.
  unfold Frontend.sortArticles, Frontend_ordered. run_sync.
  set (s := fresh (dom (heap w))). set (l := heap w !!! articles).
  destruct (String.eqb (sortOrderSelect w) "published_date_asc");
    [|destruct (String.eqb (sortOrderSelect w) "published_date_desc");
      [|destruct (String.eqb (sortOrderSelect w) "source_asc")]];
    run_sync; rewrite ?lookup_total_insert_eq;
    try (match goal with |- context [sort_list ?c l] => destruct (sort_list c l) end);
    run_sync; rewrite ?insert_insert_eq; reflexivity.
Qed.

Lemma Frontend_renderNews_eval `{Host} articles w :
  Frontend.renderNews articles w =
  match Frontend_ordered (sortOrderSelect w) (heap w !!! articles) with
  | Normal l' =>
      Return tt (with_news (join (map Frontend.newsCard l'))
                   (with_heap (<[fresh (dom (heap w)) := l']> (heap w)) w))
  | ThrowTypeError msg =>
      Throw msg (with_heap (<[fresh (dom (heap w)) := heap w !!! articles]> (heap w)) w)
  end.
Proof.
  unfold Frontend.renderNews. run_sync. rewrite Frontend_sortArticles_eval.
  destruct (Frontend_ordered (sortOrderSelect w) (heap w !!! articles)); run_sync;
    [|reflexivity].
  change (Frontend.renderArticles ?s) with (paint Frontend.newsCard s).
  rewrite paint_returns. run_sync. now rewrite lookup_total_insert_eq.
Qed.

(** ** Empty results *)

(** X1: when the store holds no article, each loading function replaces its
    placeholder by its own notice and does nothing else to the page: nothing
    is logged and no array is created. *)
Theorem empty_result_shows_notice `{Host} (remote : Remote) (w : World) :
  rows_of remote (SelectAll "articles" None) = {| data := Some []; error := None |} ->
  rows_of remote (SelectAll "articles" (Some ("published_date"%string, false)))
    = {| data := Some []; error := None |} ->
  final (run remote (Dashboard.fetchAndRenderAggregatedNews w))
    = with_news "<p>No relevant news articles found today.</p>" w /\
  final (run remote (Newsfeed.fetchNewsAndRender w))
    = with_news "<p>No relevant news found today.</p>" w /\
  final (run remote (Frontend.fetchNews w))
    = with_news "<p>No relevant news found today.</p>" w.
Proof.
  intros Hr Hr'. repeat split.
  - unfold Dashboard.fetchAndRenderAggregatedNews. run_sync. cbn [run final].
    rewrite Hr. cbn [error data length Nat.eqb]. run_sync. reflexivity.
  - unfold Newsfeed.fetchNewsAndRender. run_sync. cbn [run final].
    rewrite Hr. cbn [error data length Nat.eqb]. run_sync. reflexivity.
  - unfold Frontend.fetchNews. run_sync. cbn [run final].
    rewrite Hr'. cbn [error data length Nat.eqb]. run_sync. reflexivity.
Qed.

Lemma empty_result_shows_notice_witness :
  newsContainer (final (run emptyRemote
                          (Dashboard.fetchAndRenderAggregatedNews (H := sampleHost) blankPage)))
    = "<p>No relevant news articles found today.</p>"%string /\
  heap (final (run emptyRemote
                 (Dashboard.fetchAndRenderAggregatedNews (H := sampleHost) blankPage))) = ∅.
Proof.
  destruct (empty_result_shows_notice (H := sampleHost) emptyRemote blankPage eq_refl eq_refl)
    as (-> & _ & _).
  split; reflexivity.
Defined.

Lemma Frontend_ordered_nil `{Host} order : Frontend_ordered order [] = Normal [].
Proof.
  unfold Frontend_ordered.
  repeat match goal with |- context [String.eqb ?a ?b] => destruct (String.eqb a b) end;
    reflexivity.
Qed.

(** X2: in [src/frontend/script.js] a change of the sort order that fetches
    an empty collection leaves the region blank: the listener renders the
    empty array instead of showing the notice that [fetchNews] shows. *)
Theorem Frontend_change_blanks_empty_result `{Host} (remote : Remote) (order : string)
    (w : World) :
  rows_of remote (SelectAll "articles" None) = {| data := Some []; error := None |} ->
  outcome (run remote (change_event order Frontend.onSortOrderChange w)) = Normal tt /\
  newsContainer (final (run remote (change_event order Frontend.onSortOrderChange w)))
    = ""%string /\
  console (final (run remote (change_event order Frontend.onSortOrderChange w)))
    = console w.
Proof.
  intros Hr. unfold change_event, Frontend.onSortOrderChange. run_sync.
  cbn [run outcome final]. rewrite Hr. cbn [error data]. run_sync.
  rewrite Frontend_renderNews_eval. cbn [heap sortOrderSelect].
  rewrite lookup_total_insert_eq, Frontend_ordered_nil.
  cbn [run outcome final]. repeat split.
Qed.

Lemma Frontend_change_blanks_empty_result_witness :
  newsContainer (final (run emptyRemote
    (change_event "source_asc" (Frontend.onSortOrderChange (H := sampleHost))
       (samplePage "published_date_desc" [sampleArticle "A" None None]))))
  = ""%string.
Proof.
  apply (Frontend_change_blanks_empty_result (H := sampleHost) emptyRemote "source_asc"
           (samplePage "published_date_desc" [sampleArticle "A" None None]) eq_refl).
Defined.

(** ** Orders and revisions *)




(** X4: the render of [src/unnamed/part_001] does to every page exactly what
    the render of [src/unnamed/part_000] does, although its oldest-first
    comparator has no fallback for a missing date: [new Date(null)] is the
    epoch too. *)
Theorem Newsfeed_renders_as_Dashboard `{Host} (articles : loc) (w : World) :
  Newsfeed.sortArticles articles w = Dashboard.sortArticles articles w /\
  Newsfeed.renderNews articles w = Dashboard.renderAggregatedNews articles w.
Proof.
  split.
  - now rewrite Newsfeed_sortArticles_returns, Dashboard_sortArticles_returns.
  - now rewrite Newsfeed_renderNews_returns, Dashboard_renderAggregatedNews_returns.
Qed.

(** A comparator that answers on the elements of the list sorts it. *)
Lemma sort_insert_total_on {A} (comparefn : A -> A -> Completion Z) (cmp : A -> A -> Z) x l :
  (forall b, b ∈ l -> comparefn x b = Normal (cmp x b)) ->
  sort_insert comparefn x l = Normal (insert_by cmp x l).
Proof.
  induction l as [|y l IH]; intros Hc; cbn [sort_insert insert_by]; [reflexivity|].
  rewrite Hc by apply list_elem_of_here. cbn [cbind].
  destruct (cmp x y <=? 0); [reflexivity|].
  rewrite IH; [reflexivity|]. intros b Hb. apply Hc. now apply list_elem_of_further.
Qed.

Lemma sort_list_total_on {A} (comparefn : A -> A -> Completion Z) (cmp : A -> A -> Z) l :
  (forall a b, a ∈ l -> b ∈ l -> comparefn a b = Normal (cmp a b)) ->
  sort_list comparefn l = Normal (sort_by cmp l).
Proof.
  induction l as [|x l IH]; intros Hc; cbn [sort_list sort_by]; [reflexivity|].
  rewrite IH by (intros a b Ha Hb; apply Hc; now apply list_elem_of_further).
  cbn [cbind]. apply sort_insert_total_on. intros b Hb.
  apply Hc; [apply list_elem_of_here|].
  apply list_elem_of_further. now rewrite <- (sort_by_perm cmp l).
Qed.

Lemma Frontend_ordered_agrees `{Host} order l :
  order <> "source_asc"%string \/ Forall (fun a => is_Some (source a)) l ->
  Frontend_ordered order l = Normal (ordered order l).
Proof.
  intros Hok. unfold Frontend_ordered, ordered.
  destruct (String.eqb order "published_date_asc");
    [now apply sort_list_total|].
  destruct (String.eqb order "published_date_desc");
    [now apply sort_list_total|].
  destruct (String.eqb_spec order "source_asc") as [->|_]; [|reflexivity].
  destruct Hok as [Hne|Hall]; [congruence|].
  apply sort_list_total_on. intros a b Ha Hb.
  rewrite Forall_forall in Hall.
  destruct (Hall a Ha) as [sa Hsa], (Hall b Hb) as [sb Hsb].
  unfold Frontend.by_source_asc, cmp_source_asc, effective_source. rewrite Hsa, Hsb.
  cbn [template or_else truthy].
  destruct (String.eqb_spec sa ""), (String.eqb_spec sb ""); subst; reflexivity.
Qed.

(** X5: [src/frontend/script.js] sorts as the null-safe revisions do whenever
    the order is not [source_asc] or every article has a source: the sort
    step returns, with the same copy. *)
Theorem Frontend_sorts_as_Dashboard `{Host} (articles : loc) (w : World) :
  sortOrderSelect w <> "source_asc"%string \/
    Forall (fun a => is_Some (source a)) (heap w !!! articles) ->
  Frontend.sortArticles articles w = Dashboard.sortArticles articles w.
Proof.
  intros Hok. rewrite Frontend_sortArticles_eval, Dashboard_sortArticles_returns.
  now rewrite Frontend_ordered_agrees.
Qed.

Lemma Frontend_sorts_as_Dashboard_witness :
  Frontend.sortArticles (H := sampleHost) 0%nat
    (samplePage "source_asc"
       [sampleArticle "B" (Some "Zeta") None; sampleArticle "A" (Some "Alpha") None])
  = Dashboard.sortArticles (H := sampleHost) 0%nat
      (samplePage "source_asc"
         [sampleArticle "B" (Some "Zeta") None; sampleArticle "A" (Some "Alpha") None]).
Proof.
  apply (Frontend_sorts_as_Dashboard (H := sampleHost)).
  right. vm_compute. repeat constructor; eauto.
Defined.



(** ** Sorting again, and backwards *)

Lemma insert_by_head {A} (cmp : A -> A -> Z) x l :
  Forall (fun y => cmp x y <= 0) l -> insert_by cmp x l = x :: l.
Proof.
  destruct l as [|y l]; [reflexivity|]. intros Hall.
  apply Forall_cons in Hall as [Hy _]. cbn [insert_by].
  now destruct (Z.leb_spec (cmp x y) 0); [|lia].
Qed.

Lemma sort_by_sorted_id {A} (cmp : A -> A -> Z) l :
  StronglySorted (fun a b => cmp a b <= 0) l -> sort_by cmp l = l.
Proof.
  induction 1 as [|x l Hs IH Hall]; cbn [sort_by]; [reflexivity|].
  rewrite IH. now apply insert_by_head.
Qed.

Lemma ordered_idempotent `{HostLaws} order l : ordered order (ordered order l) = ordered order l.
Proof.
  unfold ordered.
  destruct (String.eqb order "published_date_asc");
    [|destruct (String.eqb order "published_date_desc");
      [|destruct (String.eqb order "source_asc")]].
  - apply sort_by_sorted_id, sort_by_sorted; unfold cmp_date_asc; intros; lia.
  - apply sort_by_sorted_id, sort_by_sorted; unfold cmp_date_desc; intros; lia.
  - apply sort_by_sorted_id, sort_by_sorted; unfold cmp_source_asc.
    + intros a b. apply localeCompare_total.
    + intros a b c. apply localeCompare_trans.
  - reflexivity.
Qed.

(** X7: sorting a sorted copy again under the same order key changes
    nothing: the second copy holds the articles in the order of the first. *)
Theorem resorting_changes_nothing `{HostLaws} (order : string) (w : World) (articles : loc) :
  exists s1 w1 s2 w2,
    Dashboard.sortArticles articles (with_sortOrder order w) = Return s1 w1 /\
    Dashboard.sortArticles s1 w1 = Return s2 w2 /\
    heap w2 !!! s2 = heap w1 !!! s1.
Proof.
  eexists _, _, _, _.
  split; [apply Dashboard_sortArticles_returns|].
  split; [apply Dashboard_sortArticles_returns|].
  cbn [heap with_heap with_sortOrder sortOrderSelect].
  rewrite !lookup_total_insert_eq. apply ordered_idempotent.
Qed.

Lemma resorting_changes_nothing_witness :
  exists s1 w1 s2 w2,
    Dashboard.sortArticles (H := sampleHost) 0%nat
      (with_sortOrder "source_asc"
         (samplePage "" [sampleArticle "B" (Some "Zeta") None; sampleArticle "A" None None]))
      = Return s1 w1 /\
    Dashboard.sortArticles (H := sampleHost) s1 w1 = Return s2 w2 /\
    heap w2 !!! s2 = heap w1 !!! s1.
Proof.
  exact (resorting_changes_nothing (H := sampleHost) "source_asc"
           (samplePage "" [sampleArticle "B" (Some "Zeta") None; sampleArticle "A" None None])
           0%nat).
Defined.

Lemma descending_reverse l : ascending l -> descending (reverse l).
Proof.
  unfold ascending, descending. intros Hs.
  apply StronglySorted_Sorted, Sorted_reverse in Hs.
  apply Sorted.Sorted_StronglySorted; [|exact Hs].
  intros a b c. unfold flip. lia.
Qed.

(** X8: when no two articles share a timestamp (a missing date counting as
    the epoch), the newest-first copy is the oldest-first copy read
    backwards. *)
Theorem newest_first_reverses_oldest_first `{Host} (w : World) (articles : loc) :
  distinct_times (heap w !!! articles) ->
  exists s1 w1 s2 w2,
    Dashboard.sortArticles articles (with_sortOrder "published_date_asc" w) = Return s1 w1 /\
    Dashboard.sortArticles articles (with_sortOrder "published_date_desc" w) = Return s2 w2 /\
    heap w2 !!! s2 = reverse (heap w1 !!! s1).
Proof.
  intros Hdist. eexists _, _, _, _.
  split; [apply Dashboard_sortArticles_returns|].
  split; [apply Dashboard_sortArticles_returns|].
  cbn [heap with_heap with_sortOrder sortOrderSelect].
  rewrite !lookup_total_insert_eq, ordered_asc, ordered_desc.
  apply (StronglySorted_unique_strong
           (fun a b => effective_time b <= effective_time a)).
  - intros x1 x2 H1 H2 Hle1 Hle2. apply Hdist; [| |lia].
    + now rewrite (sort_by_perm cmp_date_desc) in H1.
    + now rewrite reverse_Permutation, (sort_by_perm cmp_date_asc) in H2.
  - apply sort_by_date_desc_descending.
  - apply descending_reverse, sort_by_date_asc_ascending.
  - now rewrite reverse_Permutation, !sort_by_perm.
Qed.

Lemma newest_first_reverses_oldest_first_witness :
  exists s1 w1 s2 w2,
    Dashboard.sortArticles (H := sampleHost) 0%nat
      (with_sortOrder "published_date_asc"
         (samplePage "" [sampleArticle "B" None (Some jan2024); sampleArticle "A" None None;
                         sampleArticle "C" None (Some year1960)])) = Return s1 w1 /\
    Dashboard.sortArticles (H := sampleHost) 0%nat
      (with_sortOrder "published_date_desc"
         (samplePage "" [sampleArticle "B" None (Some jan2024); sampleArticle "A" None None;
                         sampleArticle "C" None (Some year1960)])) = Return s2 w2 /\
    heap w2 !!! s2 = reverse (heap w1 !!! s1).
Proof.
  apply (newest_first_reverses_oldest_first (H := sampleHost)
           (samplePage "" [sampleArticle "B" None (Some jan2024); sampleArticle "A" None None;
                           sampleArticle "C" None (Some year1960)]) 0%nat).
  intros a b Ha Hb.
  change (heap _ !!! 0%nat) with
    [sampleArticle "B" None (Some jan2024); sampleArticle "A" None None;
     sampleArticle "C" None (Some year1960)] in Ha, Hb.
  repeat (apply elem_of_cons in Ha as [->|Ha]); [| | |now apply elem_of_nil in Ha];
    repeat (apply elem_of_cons in Hb as [->|Hb]); try (now apply elem_of_nil in Hb);
    vm_compute; intros; try reflexivity; discriminate.
Defined.

(** ** Cards *)

(** X9: a render shows exactly one card for every article of the array it
    is given: the cards shown are a rearrangement of the cards of the
    input. *)
Theorem one_card_per_article `{Host} (articles : loc) (w : World) :
  exists w' cards,
    Dashboard.renderAggregatedNews articles w = Return tt w' /\
    newsContainer w' = join cards /\
    cards ≡ₚ map Dashboard.newsCard (heap w !!! articles) /\
    length cards = length (heap w !!! articles).
Proof.
  eexists _, _. split; [apply Dashboard_renderAggregatedNews_returns|].
  unfold rendered. cbn [newsContainer with_news].
  split; [reflexivity|].
  split; [now rewrite ordered_perm|].
  now rewrite length_map, ordered_perm.
Qed.

(** ** The day of the briefing *)

Lemma split_first_app (c : ascii) (a b : string) :
  contains_char c a = false -> split_first c (a +:+ String c b) = a.
Proof.
  induction a as [|x a IH]; cbn [contains_char]; intros Hc.
  - change ("" +:+ String c b) with (String c b). cbn [split_first].
    now rewrite Ascii.eqb_refl.
  - apply orb_false_iff in Hc as [Hx Ha]. rewrite append_cons. cbn [split_first].
    rewrite Hx. now rewrite IH.
Qed.

Lemma split_first_clean (c : ascii) (s : string) : contains_char c (split_first c s) = false.
Proof.
  induction s as [|x s IH]; cbn [split_first]; [reflexivity|].
  destruct (Ascii.eqb x c) eqn:Hx; [reflexivity|].
  cbn [contains_char]. now rewrite Hx, IH.
Qed.

(** X10: the briefing is looked up by the date part of the clock reading:
    when the ISO text of the clock is a date, the letter T and a time, the
    one read that is issued asks for the row whose [briefing_date] is that
    date; the value asked for never contains the letter T. *)
Theorem briefing_is_asked_for_the_date `{Host} (remote : Remote) (w : World)
    (date time : string) :
  toISOString (clock w) = date +:+ "T" +:+ time ->
  contains_char "T" date = false ->
  issued (run remote (Dashboard.fetchDailyBriefing w))
    = [SelectSingle "daily_briefings" "briefing_date" date] /\
  forall w0, exists value,
    issued (run remote (Dashboard.fetchDailyBriefing w0))
      = [SelectSingle "daily_briefings" "briefing_date" value] /\
    contains_char "T" value = false.
Proof.
  intros Hiso Hdate.
  assert (forall w0, issued (run remote (Dashboard.fetchDailyBriefing w0))
                     = [todays_query w0]) as Hissued.
  { intros w0. unfold Dashboard.fetchDailyBriefing, Dashboard.renderBriefing, todays_query.
    run_sync. cbn [run issued]. f_equal.
    destruct (row_of remote _) as [[b|] [e|]]; cbn [error data];
      try destruct (negb _); run_sync; reflexivity. }
  split.
  - rewrite Hissued. unfold todays_query. rewrite Hiso.
    change (date +:+ "T" +:+ time) with (date +:+ String "T"%char time).
    now rewrite split_first_app.
  - intros w0. eexists. split; [apply Hissued|]. apply split_first_clean.
Qed.

Lemma briefing_is_asked_for_the_date_witness :
  issued (run sampleRemote (Dashboard.fetchDailyBriefing (H := sampleHost) blankPage))
    = [SelectSingle "daily_briefings" "briefing_date" "2024-06-01"].
Proof.
  apply (briefing_is_asked_for_the_date (H := sampleHost) sampleRemote blankPage
           "2024-06-01" "08:00:00.000Z"); reflexivity.
Defined.

(** ** Answers and the page they arrive on *)

Lemma articles_suspends `{Host} w :
  exists k,
    Dashboard.fetchAndRenderAggregatedNews w =
      AwaitRows (SelectAll "articles" None) (with_news "<p>Loading news articles...</p>" w) k /\
    forall r w', world_of (k r w') = articles_settled r w'.
Proof.
  eexists. split.
  - unfold Dashboard.fetchAndRenderAggregatedNews. run_sync. reflexivity.
  - intros [[rows|] [e|]] w'; cbn [bind_step error data]; unfold articles_settled;
      cbn [error data]; run_sync; try reflexivity.
    destruct rows as [|a rows]; cbn [length Nat.eqb]; run_sync; [reflexivity|].
    now rewrite Dashboard_renderAggregatedNews_returns.
Qed.

Lemma briefing_suspends `{Host} w :
  exists k,
    Dashboard.fetchDailyBriefing w =
      AwaitRow (todays_query w) (with_briefing "<p>Loading daily briefing...</p>" w) k /\
    forall r w',
      world_of (k r w') =
      with_briefing (briefing_shown r) (with_console (console w' ++ briefing_logged r) w').
Proof.
  eexists. split.
  - unfold Dashboard.fetchDailyBriefing, todays_query. run_sync. reflexivity.
  - intros [[b|] [e|]] w'; cbn [bind_step error data];
      unfold briefing_shown, briefing_logged, Dashboard.renderBriefing; cbn [error data];
      try destruct (String.eqb (code e) "PGRST116"); cbn [negb]; run_sync;
      rewrite ?app_nil_r; reflexivity.
Qed.

(** X11: the sort order applied to fetched articles is the one the selector
    holds when the answer arrives, not the one it held when the read was
    started; the region shows the cards of the fetched rows in that order. *)
Theorem order_is_read_on_arrival `{Host} (w : World) :
  exists k,
    Dashboard.fetchAndRenderAggregatedNews w =
      AwaitRows (SelectAll "articles" None) (with_news "<p>Loading news articles...</p>" w) k /\
    forall rows order w',
      rows <> [] ->
      newsContainer (world_of (k {| data := Some rows; error := None |}
                                 (with_sortOrder order w')))
        = join (map Dashboard.newsCard (ordered order rows)).
Proof.
  destruct (articles_suspends w) as (k & Hk & Hsettled).
  exists k. split; [exact Hk|].
  intros rows order w' Hrows. rewrite Hsettled. unfold articles_settled. cbn [error data].
  destruct rows as [|a rows]; [congruence|].
  unfold rendered. cbn [newsContainer with_news heap with_heap sortOrderSelect with_sortOrder].
  now rewrite lookup_total_insert_eq.
Qed.

Lemma order_is_read_on_arrival_witness :
  exists k,
    Dashboard.fetchAndRenderAggregatedNews (H := sampleHost)
      (with_sortOrder "published_date_desc" blankPage) =
      AwaitRows (SelectAll "articles" None)
        (with_news "<p>Loading news articles...</p>"
           (with_sortOrder "published_date_desc" blankPage)) k /\
    newsContainer
      (world_of (k {| data := Some [sampleArticle "B" (Some "Zeta") None;
                                    sampleArticle "A" (Some "Alpha") None];
                      error := None |}
                   (with_sortOrder "source_asc" blankPage)))
    = join (map (Dashboard.newsCard (H := sampleHost))
              [sampleArticle "A" (Some "Alpha") None; sampleArticle "B" (Some "Zeta") None]).
Proof.
  destruct (order_is_read_on_arrival (H := sampleHost)
              (with_sortOrder "published_date_desc" blankPage)) as (k & Hk & Hshow).
  exists k. split; [exact Hk|].
  apply (Hshow [sampleArticle "B" (Some "Zeta") None; sampleArticle "A" (Some "Alpha") None]
           "source_asc"%string blankPage).
  discriminate.
Defined.

(** ** The loading placeholder *)

Lemma cards_not_placeholder `{Host} (l : list Article) :
  l <> [] -> join (map Dashboard.newsCard l) <> "<p>Loading news articles...</p>"%string.
Proof.
  destruct l as [|a l]; [congruence|]. intros _.
  unfold join. cbn [map foldr]. unfold Dashboard.newsCard, newsCard_template, nl.
  rewrite !append_assoc, !append_cons. discriminate.
Qed.

(** X12: once the read of the articles is answered with an error or with
    rows, the loading placeholder is gone from the region: it shows the
    failure text, the notice for no articles, or cards.  An answer with
    neither an error nor rows leaves the placeholder and throws. *)
Theorem placeholder_is_replaced `{Host} (remote : Remote) (w : World) :
  (answered (rows_of remote (SelectAll "articles" None)) ->
   newsContainer (final (run remote (Dashboard.fetchAndRenderAggregatedNews w)))
     <> "<p>Loading news articles...</p>"%string) /\
  (rows_of remote (SelectAll "articles" None) = {| data := None; error := None |} ->
   final (run remote (Dashboard.fetchAndRenderAggregatedNews w))
     = with_news "<p>Loading news articles...</p>" w /\
   exists msg,
     outcome (run remote (Dashboard.fetchAndRenderAggregatedNews w)) = ThrowTypeError msg).
Proof.
  split.
  - intros Hans.
    destruct (rows_of remote (SelectAll "articles" None)) as [d [e|]] eqn:Hr.
    + rewrite (Dashboard_fetch_failure remote w d e Hr). discriminate.
    + destruct Hans as [[? Hans]|[rows Hrows]]; [discriminate|].
      cbn [data] in Hrows. subst d.
      destruct rows as [|a rows].
      * unfold Dashboard.fetchAndRenderAggregatedNews. run_sync. cbn [run final].
        rewrite Hr. cbn [error data length Nat.eqb]. run_sync. discriminate.
      * rewrite (Dashboard_fetch_success remote _ (a :: rows) Hr) by discriminate.
        apply cards_not_placeholder.
        intros Hnil. pose proof (ordered_perm (sortOrderSelect
                                   (with_news "<p>Loading news articles...</p>" w))
                                   (a :: rows)) as Hp.
        cbn [sortOrderSelect with_news] in Hnil, Hp. rewrite Hnil in Hp.
        now apply Permutation_nil_cons in Hp.
  - intros Hr. unfold Dashboard.fetchAndRenderAggregatedNews. run_sync.
    cbn [run final outcome]. rewrite Hr. cbn [error data]. run_sync.
    cbn [run final outcome]. split; [reflexivity|]. eexists. reflexivity.
Qed.

Lemma placeholder_is_replaced_witness :
  newsContainer (final (run failingRemote
                          (Dashboard.fetchAndRenderAggregatedNews (H := sampleHost) blankPage)))
    <> "<p>Loading news articles...</p>"%string /\
  newsContainer (final (run sampleRemote
                          (Dashboard.fetchAndRenderAggregatedNews (H := sampleHost) blankPage)))
    <> "<p>Loading news articles...</p>"%string.
Proof.
  split.
  - apply (placeholder_is_replaced (H := sampleHost) failingRemote blankPage).
    left. vm_compute. eauto.
  - apply (placeholder_is_replaced (H := sampleHost) sampleRemote blankPage).
    right. vm_compute. eauto.
Defined.

(** ** The two loads at the start of the page *)

(** The answer for the articles touches neither the briefing region nor
    the selector, and reads neither the briefing region nor the console. *)
Lemma articles_settled_frame `{Host} r w :
  briefingContainer (articles_settled r w) = briefingContainer w /\
  sortOrderSelect (articles_settled r w) = sortOrderSelect w /\
  console (articles_settled r w) = console w ++ articles_logged r.
Proof.
  unfold articles_settled, articles_logged.
  destruct r as [[[|a rows]|] [e|]]; cbn [error data];
    unfold rendered, with_news, with_console, with_heap;
    cbn [briefingContainer sortOrderSelect console];
    rewrite ?app_nil_r; auto.
Qed.

Lemma articles_settled_blind `{Host} r w shown logged :
  newsContainer (articles_settled r (with_briefing shown (with_console logged w)))
    = newsContainer (articles_settled r w) /\
  heap (articles_settled r (with_briefing shown (with_console logged w)))
    = heap (articles_settled r w).
Proof.
  unfold articles_settled.
  destruct r as [[[|a rows]|] [e|]]; cbn [error data];
    unfold rendered, with_news, with_console, with_heap, with_briefing;
    cbn [newsContainer heap sortOrderSelect]; auto.
Qed.

(** X13: the two loads started at the end of [src/unnamed/part_000] do not
    disturb one another: whichever answer arrives first, the page ends with
    the same article region, the same briefing region and the same arrays;
    only the order of the two log lines follows the order of arrival. *)
Theorem page_load_order_is_irrelevant `{Host} (briefingAnswer : Response Briefing)
    (articlesAnswer : Response (list Article)) (w : World) :
  let a := pageLoad BriefingFirst briefingAnswer articlesAnswer w in
  let b := pageLoad ArticlesFirst briefingAnswer articlesAnswer w in
  newsContainer a = newsContainer b /\
  briefingContainer a = briefingContainer b /\
  briefingContainer a = briefing_shown briefingAnswer /\
  heap a = heap b /\
  sortOrderSelect a = sortOrderSelect w /\
  sortOrderSelect b = sortOrderSelect w /\
  console a = console w ++ briefing_logged briefingAnswer ++ articles_logged articlesAnswer /\
  console b = console w ++ articles_logged articlesAnswer ++ briefing_logged briefingAnswer.
Proof.
  cbv zeta. unfold pageLoad.
  destruct (briefing_suspends w) as (kb & -> & Hb).
  destruct (articles_suspends (with_briefing "<p>Loading daily briefing...</p>" w))
    as (ka & -> & Ha).
  rewrite !Ha, !Hb.
  set (w2 := with_news "<p>Loading news articles...</p>"
               (with_briefing "<p>Loading daily briefing...</p>" w)).
  set (shown := briefing_shown briefingAnswer).
  set (logged := briefing_logged briefingAnswer).
  destruct (articles_settled_frame articlesAnswer w2) as (Hb2 & Hs2 & Hc2).
  destruct (articles_settled_frame articlesAnswer
              (with_briefing shown (with_console (console w2 ++ logged) w2)))
    as (Hb1 & Hs1 & Hc1).
  destruct (articles_settled_blind articlesAnswer w2 shown (console w2 ++ logged))
    as (Hn & Hh).
  split; [exact Hn|]. split; [exact Hb1|]. split; [exact Hb1|]. split; [exact Hh|].
  split; [exact Hs1|]. split; [exact Hs2|].
  split.
  - rewrite Hc1. cbn [console with_briefing with_console]. now rewrite <- app_assoc.
  - cbn [console with_briefing with_console]. rewrite Hc2. now rewrite <- app_assoc.
Qed.

(** ** Few articles *)

Lemma Frontend_ordered_short `{Host} order l :
  (length l <= 1)%nat -> Frontend_ordered order l = Normal l.
Proof.
  intros Hlen. destruct l as [|a [|b l]]; [| |cbn in Hlen; lia];
    unfold Frontend_ordered;
    repeat match goal with |- context [String.eqb ?a ?b] => destruct (String.eqb a b) end;
    reflexivity.
Qed.

(** X14: with fewer than two articles the render of
    [src/frontend/script.js] returns under every order, also when the
    source is missing: the comparator is never called.  The card of an
    article without a source or description then reads null. *)
Theorem Frontend_renders_a_single_article `{Host} (articles : loc) (w : World) :
  (length (heap w !!! articles) <= 1)%nat ->
  exists w',
    Frontend.renderNews articles w = Return tt w' /\
    newsContainer w' = join (map Frontend.newsCard (heap w !!! articles)) /\
    forall a, source a = None -> description a = None ->
      Frontend.newsCard a =
      newsCard_template (url a) (title a) "null" (articleDate_of a) "null" (keywordsHtml_of a).
Proof.
  intros Hlen. eexists. rewrite Frontend_renderNews_eval, Frontend_ordered_short by exact Hlen.
  split; [reflexivity|]. split; [reflexivity|].
  intros a Hs Hd. unfold Frontend.newsCard. now rewrite Hs, Hd.
Qed.

Lemma Frontend_renders_a_single_article_witness :
  exists w',
    Frontend.renderNews (H := sampleHost) 0%nat
      (samplePage "source_asc" [sampleArticle "A" None None]) = Return tt w' /\
    newsContainer w' = Frontend.newsCard (H := sampleHost) (sampleArticle "A" None None).
Proof.
  destruct (Frontend_renders_a_single_article (H := sampleHost) 0%nat
              (samplePage "source_asc" [sampleArticle "A" None None]))
    as (w' & Hrun & Hnews & _).
  - vm_compute. lia.
  - exists w'. split; [exact Hrun|]. rewrite Hnews. vm_compute. reflexivity.
Defined.

(** ** Exceptions while loading *)



(** X16: the loading functions of the null-safe revisions end without an
    exception whenever the read is answered with an error or with rows,
    whatever the rows and the selected order. *)
Theorem null_safe_loaders_return `{Host} (remote : Remote) (w : World) :
  answered (rows_of remote (SelectAll "articles" None)) ->
  outcome (run remote (Dashboard.fetchAndRenderAggregatedNews w)) = Normal tt /\
  outcome (run remote (Newsfeed.fetchNewsAndRender w)) = Normal tt.
Proof.
  intros Hans. unfold Dashboard.fetchAndRenderAggregatedNews, Newsfeed.fetchNewsAndRender.
  run_sync. cbn [run outcome].
  destruct (rows_of remote _) as [[rows|] [e|]]; cbn [error data]; run_sync;
    cbn [run outcome]; try (split; reflexivity).
  - destruct (Nat.eqb (length rows) 0); run_sync; [split; reflexivity|].
    now rewrite Dashboard_renderAggregatedNews_returns, Newsfeed_renderNews_returns.
  - destruct Hans as [[? Hans]|[? Hans]]; discriminate.
Qed.

Lemma null_safe_loaders_return_witness :
  outcome (run
    {| rows_of := fun _ => {| data := Some [sampleArticle "A" None None;
                                            sampleArticle "B" None None];
                              error := None |};
       row_of := row_of sampleRemote |}
    (Dashboard.fetchAndRenderAggregatedNews (H := sampleHost)
       (with_sortOrder "source_asc" blankPage)))
  = Normal tt.
Proof.
  apply (null_safe_loaders_return (H := sampleHost)
           {| rows_of := fun _ => {| data := Some [sampleArticle "A" None None;
                                                   sampleArticle "B" None None];
                                     error := None |};
              row_of := row_of sampleRemote |}
           (with_sortOrder "source_asc" blankPage)).
  right. vm_compute. eauto.
Defined.
